(** * It takes a walk: a shallow embedding of the notebook's data pipeline

    The notebook [it-takes-a-walk.ipynb] pulls Stop and Search records
    from the UK Police API month by month, flattens every record into a
    row ([parse_ss_event], [parsing]), concatenates the twelve monthly
    frames ([yearly_crimes_20]), attaches point geometries
    ([crimes_geodf_20]), filters subsets by substring ([black],
    [black_youth]), computes ratios, and splits a Mapbox isochrone
    response into two frames ([walk_5], [walk_10]).

    Python objects are modelled by the type [value]; an exception is an
    element of [exn] carried by the error monad [result].  The two things
    the notebook takes from outside the repository are the fields of the
    class [Runtime]: the parser behind Python's [float(str)] and the
    network (one JSON document per requested URL). *)

From Stdlib Require Import ZArith List String Ascii Bool Lia QArith.
From Stdlib Require Import PrimFloat SpecFloat FloatOps.
Import ListNotations.

Set Warnings "-inexact-float,-register-all".
Local Open Scope string_scope.
Local Open Scope Z_scope.

(** ** Python exceptions and the error monad *)

(** The exceptions met in the notebook.  [KeyErrorInt] is a [KeyError]
    for an integer key; [Unmodelled] marks the library paths that this
    development leaves out (geometry types other than polygons). *)
Inductive exn : Type :=
| KeyError (k : string)
| KeyErrorInt (k : Z)
| IndexError
| TypeError
| ValueError
| OverflowError
| ZeroDivisionError
| AttributeError
| Unmodelled.

Inductive result (A : Type) : Type :=
| Ok (a : A)
| Raise (e : exn).

Arguments Ok {A} a.
Arguments Raise {A} e.

Definition bind {A B : Type} (m : result A) (k : A -> result B) : result B :=
  match m with
  | Ok a => k a
  | Raise e => Raise e
  end.

Declare Scope py_scope.
Delimit Scope py_scope with py.
Notation "x <- m ;; k" := (bind m (fun x => k))
  (at level 100, m at next level, right associativity) : py_scope.
Local Open Scope py_scope.

Definition is_ok {A : Type} (m : result A) : bool :=
  match m with Ok _ => true | Raise _ => false end.

(** Left-to-right evaluation of a list of computations: the first
    exception aborts the rest, as in a Python list display or loop. *)
Fixpoint mapM {A B : Type} (f : A -> result B) (l : list A) : result (list B) :=
  match l with
  | [] => Ok []
  | a :: l' => b <- f a ;; bs <- mapM f l' ;; Ok (b :: bs)
  end.

(** ** Python values *)

(** A shapely geometry.  Coordinates are binary64 numbers. *)
Inductive geometry : Type :=
| Point (x y : float)
| Polygon (shell : list (float * float)) (holes : list (list (float * float))).

(** What [json.loads] returns ([None], [bool], [int], [float], [str],
    [list], [dict] with string keys, in insertion order), plus the
    geometry objects that the spatial frames store in a column. *)
Inductive value : Type :=
| VNone
| VBool (b : bool)
| VInt (z : Z)
| VFloat (f : float)
| VStr (s : string)
| VList (l : list value)
| VDict (d : list (string * value))
| VGeom (g : geometry).

(** Lookup in an insertion-ordered dict. *)
Fixpoint lookup {A : Type} (k : string) (d : list (string * A)) : option A :=
  match d with
  | [] => None
  | (k', v) :: d' => if String.eqb k k' then Some v else lookup k d'
  end.

(** Dict assignment [d[k] = v]: an existing key keeps its place. *)
Fixpoint assign {A : Type} (k : string) (v : A) (d : list (string * A))
  : list (string * A) :=
  match d with
  | [] => [(k, v)]
  | (k', v') :: d' =>
      if String.eqb k k' then (k, v) :: d' else (k', v') :: assign k v d'
  end.

(** [obj[k]] for a string key [k]. *)
Definition getitem (obj : value) (k : string) : result value :=
  match obj with
  | VDict d =>
      match lookup k d with
      | Some v => Ok v
      | None => Raise (KeyError k)
      end
  | _ => Raise TypeError
  end.

(** [obj[i]] for a non-negative integer literal [i]. *)
Definition getindex (obj : value) (i : nat) : result value :=
  match obj with
  | VList l =>
      match nth_error l i with
      | Some v => Ok v
      | None => Raise IndexError
      end
  | VStr s =>
      match String.get i s with
      | Some c => Ok (VStr (String c EmptyString))
      | None => Raise IndexError
      end
  | VDict _ => Raise (KeyErrorInt (Z.of_nat i))
  | _ => Raise TypeError
  end.

Notation "o .[ k ]" := (getitem o k) (at level 1, left associativity,
  format "o .[ k ]") : py_scope.

Fixpoint chars (s : string) : list value :=
  match s with
  | EmptyString => []
  | String c s' => VStr (String c EmptyString) :: chars s'
  end.

(** The items a [for] loop sees. *)
Definition py_iter (obj : value) : result (list value) :=
  match obj with
  | VList l => Ok l
  | VDict d => Ok (map (fun kv => VStr (fst kv)) d)
  | VStr s => Ok (chars s)
  | _ => Raise TypeError
  end.

(** [float(n)] for an [int]: the nearest binary64, ties to even;
    [OverflowError] when the integer is too large. *)
Definition float_of_int (z : Z) : result float :=
  match binary_normalize prec emax z 0 false with
  | S754_infinity _ => Raise OverflowError
  | sf => Ok (SF2Prim sf)
  end.

(** What the notebook takes from outside the repository. *)
Class Runtime : Type := {
  (** CPython's parser behind [float(str)], [None] when it raises
      [ValueError]. *)
  float_of_string : string -> option float;
  (** The network: [json.loads(requests.get(url).content)]. *)
  fetch_json : string -> result value
}.

Section Notebook.

Context {rt : Runtime}.

(** The builtin [float(x)]. *)
Definition py_float (x : value) : result float :=
  match x with
  | VFloat f => Ok f
  | VInt z => float_of_int z
  | VBool b => Ok (if b then 1%float else 0%float)
  | VStr s =>
      match float_of_string s with
      | Some f => Ok f
      | None => Raise ValueError
      end
  | _ => Raise TypeError
  end.

(** ** The record normalizer *)

(** A [pd.Series] built from a dict: labels with their values, in order. *)
Definition Series : Type := list (string * value).

(** [parse_ss_event]: the entries of the dict display are evaluated in
    source order, each access raising on a missing key; the labels are
    those of the source, the third one as it is spelled there. *)
Definition parse_ss_event (cr : value) : result Series :=
  age_range <- cr.["age_range"] ;;
  outcome <- cr.["outcome"] ;;
  involved_person <- cr.["involved_person"] ;;
  gender <- cr.["gender"] ;;
  self_defined_ethnicity <- cr.["self_defined_ethnicity"] ;;
  loc1 <- cr.["location"] ;;
  street <- loc1.["street"] ;;
  street_id <- street.["id"] ;;
  loc2 <- cr.["location"] ;;
  lon <- loc2.["longitude"] ;;
  longitude <- py_float lon ;;
  loc3 <- cr.["location"] ;;
  lat <- loc3.["latitude"] ;;
  latitude <- py_float lat ;;
  datetime <- cr.["datetime"] ;;
  officer_defined_ethnicity <- cr.["officer_defined_ethnicity"] ;;
  Ok [ ("age_range", age_range);
       ("outcome", outcome);
       ("involed_person", involved_person);
       ("gender", gender);
       ("self_defined_ethnicity", self_defined_ethnicity);
       ("street_id", street_id);
       ("longitude", VFloat longitude);
       ("latitude", VFloat latitude);
       ("date", datetime);
       ("officer_ethnicity", officer_defined_ethnicity) ].

(** ** pandas frames *)

(** A [pd.DataFrame]: the column labels and the rows in order, every
    row with its index label.  Rows stay the Series they were built
    from; a label that a row lacks reads as NaN. *)
Record DataFrame : Type := mkDataFrame {
  columns : list string;
  rows : list (Z * Series)
}.

Definition len (df : DataFrame) : nat := List.length (rows df).

Definition mem (k : string) (l : list string) : bool :=
  existsb (String.eqb k) l.

(** Union of two label lists in order of first appearance. *)
Definition union (a b : list string) : list string :=
  fold_left (fun acc k => if mem k acc then acc else (acc ++ [k])%list) b a.

Definition labels {A : Type} (s : list (string * A)) : list string :=
  map fst s.

(** [zip(range(start, ...), l)] *)
Fixpoint enumerate {A : Type} (start : Z) (l : list A) : list (Z * A) :=
  match l with
  | [] => []
  | a :: l' => (start, a) :: enumerate (start + 1) l'
  end.

(** [pd.DataFrame(list_of_series)]: one row per Series, labelled
    [0 .. n-1]; no columns at all when the list is empty. *)
Definition DataFrame_of (parsed : list Series) : DataFrame :=
  {| columns := fold_left union (map labels parsed) [];
     rows := enumerate 0 parsed |}.

(** [pd.concat(frames)] with the defaults ([axis=0],
    [ignore_index=False]): rows appended in list order under their old
    labels, columns united. *)
Definition concat (frames : list DataFrame) : result DataFrame :=
  match frames with
  | [] => Raise ValueError
  | _ =>
      Ok {| columns := fold_left union (map columns frames) [];
            rows := List.concat (map rows frames) |}
  end.

Definition cell (col : string) (s : Series) : value :=
  match lookup col s with
  | Some v => v
  | None => VFloat nan
  end.

(** [df[col]]: the column as the list of its cells. *)
Definition df_getitem (df : DataFrame) (col : string) : result (list value) :=
  if mem col (columns df)
  then Ok (map (fun r => cell col (snd r)) (rows df))
  else Raise (KeyError col).

(** [haystack.find(needle) >= 0] *)
Fixpoint contains (needle haystack : string) : bool :=
  String.prefix needle haystack ||
  match haystack with
  | EmptyString => false
  | String _ rest => contains needle rest
  end.

(** Missing values as pandas sees them: [None] and NaN. *)
Definition is_null (v : value) : bool :=
  match v with
  | VNone => true
  | VFloat f => PrimFloat.is_nan f
  | _ => false
  end.

Definition is_str (v : value) : bool :=
  match v with VStr _ => true | _ => false end.

Definition is_bool (v : value) : bool :=
  match v with VBool _ => true | _ => false end.

Definition is_int (v : value) : bool :=
  match v with VInt _ => true | _ => false end.

Definition is_float (v : value) : bool :=
  match v with VFloat _ => true | _ => false end.

Definition is_number (v : value) : bool := is_int v || is_float v.

(** The type that [lib.infer_dtype] reads off values none of which is
    missing: the first value decides which uniform type is tried; what
    is not uniform is mixed. *)
Definition infer_values (values : list value) : string :=
  let mixed :=
    if existsb is_int values then "mixed-integer" else "mixed" in
  match values with
  | [] => "empty"
  | VInt _ :: _ =>
      if forallb is_int values then "integer"
      else if forallb is_number values then "mixed-integer-float"
      else "mixed-integer"
  | VFloat _ :: _ =>
      if forallb is_float values then "floating"
      else if forallb is_number values then "mixed-integer-float"
      else mixed
  | VBool _ :: _ => if forallb is_bool values then "boolean" else mixed
  | VStr _ :: _ => if forallb is_str values then "string" else mixed
  | _ => mixed
  end.

(** [lib.infer_dtype(column, skipna=True)], by which [.str] judges a
    column: the missing values are set aside and the type is read off
    the values that are left.  This is what pandas does on a column of
    dtype object, which a column is whenever it holds a string or
    nothing but [None].  A column is a list of cells here and has no
    dtype of its own: on a column that pandas stores as bool, int64 or
    float64 the answer below is pandas' own as long as a value other
    than NaN is left in the column (pandas refuses such a column even
    when none is left). *)
Definition infer_dtype (column : list value) : string :=
  infer_values (filter (fun v => negb (is_null v)) column).

(** The inferred types that the [.str] accessor works on. *)
Definition allowed_types : list string :=
  ["string"; "empty"; "bytes"; "mixed"; "mixed-integer"].

(** The test of [contains] entry by entry, with [na=False]: an entry
    that is not a string counts as missing and yields [False]. *)
Definition contains_mask (pat : string) (column : list value) : list bool :=
  map (fun v => match v with VStr s => contains pat s | _ => false end) column.

(** [column.str.contains(pat, na=False)] for a pattern without regex
    metacharacters.  The accessor [.str] is validated first and raises
    [AttributeError] on a column whose values infer as boolean or
    numeric; on the other columns every entry is tested. *)
Definition str_contains (pat : string) (column : list value)
  : result (list bool) :=
  if mem (infer_dtype column) allowed_types
  then Ok (contains_mask pat column)
  else Raise AttributeError.

(** [frame[mask]] with a boolean mask over the frame's own index:
    the rows at the [True] positions, in order. *)
Fixpoint boolean_mask {A : Type} (mask : list bool) (l : list A) : list A :=
  match mask, l with
  | b :: mask', a :: l' =>
      if b then a :: boolean_mask mask' l' else boolean_mask mask' l'
  | _, _ => []
  end.

(** Python's [a / b] on integers, as the exact quotient (the float
    Python returns is this rational rounded to nearest, and rounding
    keeps it between the floats 0 and 1 when the rational is). *)
Definition truediv (a b : nat) : result Q :=
  match b with
  | O => Raise ZeroDivisionError
  | S _ => Ok (Z.of_nat a # Pos.of_nat b)%Q
  end.

(** ** Monthly fetch and the annual table *)

Definition poly : string :=
  "53.44389944710078, -3.01025390625:" ++
  "53.40461992848442,-2.9999542236328125:" ++
  "53.366942995161345, -2.967681884765625:" ++
  "53.37800381298034, -2.912750244140625:" ++
  "53.4230367215282,-2.9196166992187496:" ++
  "53.44676215918743,-2.973175048828125:" ++
  "53.44489944710078,-3.012025390625".

(** The [for] loop of [parsing]: every parsed event is appended to the
    list; an exception from [parse_ss_event] leaves the loop and the
    function. *)
Fixpoint parsing_loop (crimes : list value) (parsed : list Series)
  : result (list Series) :=
  match crimes with
  | [] => Ok parsed
  | cr :: rest =>
      pc <- parse_ss_event cr ;;
      parsing_loop rest (parsed ++ [pc])%list
  end.

Definition parsing (stop_and_search : value) : result DataFrame :=
  crimes <- py_iter stop_and_search ;;
  parsed <- parsing_loop crimes [] ;;
  Ok (DataFrame_of parsed).

Definition month_url (month year : string) : string :=
  "https://data.police.uk/api/stops-street?poly=" ++ poly ++
  "&date=" ++ year ++ "-" ++ month.

Definition get_month_crime (month year : string) : result DataFrame :=
  mcrimes <- fetch_json (month_url month year) ;;
  parsing mcrimes.

Definition months : list string :=
  ["01"; "02"; "03"; "04"; "05"; "06"; "07"; "08"; "09"; "10"; "11"; "12"].

(** The cell that builds [yearly_crimes_20], for any year string. *)
Definition yearly_crimes (year : string) : result DataFrame :=
  tables <- mapM (fun month => get_month_crime month year) months ;;
  concat tables.

Definition yearly_crimes_20 : result DataFrame := yearly_crimes "2020".

(** ** The geo-tagger and the subsets *)

(** A [gpd.GeoDataFrame]: a frame whose column ["geometry"] holds
    geometries, and the identifier of its coordinate reference system. *)
Record GeoDataFrame : Type := mkGeoDataFrame {
  frame : DataFrame;
  crs : string
}.

(** Conversion of one cell to a float64 array entry. *)
Definition as_float64 (v : value) : result float :=
  match v with
  | VNone => Ok nan
  | _ => py_float v
  end.

(** [gpd.points_from_xy(x, y)]: the i-th point is (x[i], y[i]). *)
Definition points_from_xy (x y : list value) : result (list geometry) :=
  xs <- mapM as_float64 x ;;
  ys <- mapM as_float64 y ;;
  if Nat.eqb (List.length xs) (List.length ys)
  then Ok (map (fun p => Point (fst p) (snd p)) (combine xs ys))
  else Raise ValueError.

(** Positional column assignment [df[col] = vals]. *)
Fixpoint set_column (col : string) (vals : list value) (rs : list (Z * Series))
  : list (Z * Series) :=
  match vals, rs with
  | v :: vals', (i, s) :: rs' => (i, assign col v s) :: set_column col vals' rs'
  | _, _ => []
  end.

(** [gpd.GeoDataFrame(data, geometry=points, crs=crs)] *)
Definition GeoDataFrame_of (data : DataFrame) (geometry : list geometry)
  (crs : string) : result GeoDataFrame :=
  if Nat.eqb (List.length geometry) (len data)
  then Ok {| frame :=
               {| columns := union (columns data) ["geometry"];
                  rows := set_column "geometry" (map VGeom geometry) (rows data) |};
             crs := crs |}
  else Raise ValueError.

(** The cell that builds [crimes_geodf_20] from the annual table. *)
Definition crimes_geodf (yearly : DataFrame) : result GeoDataFrame :=
  x <- df_getitem yearly "longitude" ;;
  y <- df_getitem yearly "latitude" ;;
  points <- points_from_xy x y ;;
  GeoDataFrame_of yearly points "EPSG:27700".

Definition crimes_geodf_20 : result GeoDataFrame :=
  yearly <- yearly_crimes_20 ;;
  crimes_geodf yearly.

(** [gdf[gdf[col].str.contains(pat, na=False)]] *)
Definition where_contains (gdf : GeoDataFrame) (col pat : string)
  : result GeoDataFrame :=
  column <- df_getitem (frame gdf) col ;;
  mask <- str_contains pat column ;;
  Ok {| frame :=
          {| columns := columns (frame gdf);
             rows := boolean_mask mask (rows (frame gdf)) |};
        crs := crs gdf |}.

Definition black (crimes : GeoDataFrame) : result GeoDataFrame :=
  where_contains crimes "self_defined_ethnicity" "Black".

Definition white (crimes : GeoDataFrame) : result GeoDataFrame :=
  where_contains crimes "self_defined_ethnicity" "White".

Definition black_youth (black : GeoDataFrame) : result GeoDataFrame :=
  where_contains black "age_range" "18-24".

Definition glen (gdf : GeoDataFrame) : nat := len (frame gdf).

(** [len(black) / len(crimes_geodf_20)] *)
Definition bk_percentage (black crimes : GeoDataFrame) : result Q :=
  truediv (glen black) (glen crimes).

(** [(len(black_youth) / len(black)) * 100] *)
Definition black_youth_percentage (black_youth black : GeoDataFrame)
  : result Q :=
  r <- truediv (glen black_youth) (glen black) ;;
  Ok (r * 100)%Q.

(** ** shapely and geopandas constructors used by the isochrone cells

    Modelled after shapely 2 ([shape], [Polygon], [LinearRing]) and
    [GeoDataFrame.from_features]; only polygons are covered, the other
    geometry types end in [Unmodelled]. *)

Definition lower_ascii (c : ascii) : ascii :=
  let n := nat_of_ascii c in
  if ((65 <=? n) && (n <=? 90))%nat then ascii_of_nat (n + 32) else c.

Fixpoint lower (s : string) : string :=
  match s with
  | EmptyString => EmptyString
  | String c s' => String (lower_ascii c) (lower s')
  end.

(** [[float(c) for c in o]], a position of two ordinates. *)
Definition position (o : value) : result (float * float) :=
  cs <- py_iter o ;;
  fs <- mapM py_float cs ;;
  match fs with
  | [x; y] => Ok (x, y)
  | [_; _; _] => Raise Unmodelled
  | _ => Raise ValueError
  end.

Definition coord_eqb (p q : float * float) : bool :=
  PrimFloat.eqb (fst p) (fst q) && PrimFloat.eqb (snd p) (snd q).

(** A ring whose first and last positions differ is closed by a copy
    of the first one. *)
Definition close_ring (pts : list (float * float)) : list (float * float) :=
  match pts with
  | [] => []
  | p :: _ => if coord_eqb p (last pts p) then pts else (pts ++ [p])%list
  end.

(** [LinearRing(coordinates)]; rings of one to three positions are not
    covered. *)
Definition LinearRing (coordinates : value) : result (list (float * float)) :=
  items <- py_iter coordinates ;;
  pts <- mapM position items ;;
  match pts with
  | [] => Ok []
  | _ =>
      if (List.length pts <? 4)%nat then Raise Unmodelled
      else Ok (close_ring pts)
  end.

(** [_is_coordinates_empty]: [None], or lists that hold nothing but
    such values.  Numbers are not empty; strings and dicts are not
    coordinates and count as not empty here. *)
Fixpoint is_coordinates_empty (c : value) : bool :=
  match c with
  | VNone => true
  | VList l => forallb is_coordinates_empty l
  | _ => false
  end.

(** [shapely.geometry.shape(ob)] *)
Definition shape (ob : value) : result geometry :=
  match ob with
  | VDict d =>
      match lookup "type" d with
      | Some (VStr t) =>
          let geom_type := lower t in
          if negb (String.eqb geom_type "polygon") then Raise Unmodelled
          else
            match lookup "coordinates" d with
            | None => Raise (KeyError "coordinates")
            | Some c =>
                if is_coordinates_empty c then Ok (Polygon [] [])
                else
                  match c with
                  | VList (shell :: holes) =>
                      s <- LinearRing shell ;;
                      hs <- mapM LinearRing holes ;;
                      Ok (Polygon s hs)
                  | VList [] => Raise IndexError
                  | _ => Raise TypeError
                  end
            end
      | _ => Raise AttributeError
      end
  | _ => Raise AttributeError
  end.

(** Python truth value. *)
Definition truthy (v : value) : bool :=
  match v with
  | VNone => false
  | VBool b => b
  | VInt z => negb (z =? 0)
  | VFloat f => negb (PrimFloat.eqb f 0%float)
  | VStr s => negb (String.eqb s "")
  | VList l => negb (Nat.eqb (List.length l) 0)
  | VDict d => negb (Nat.eqb (List.length d) 0)
  | VGeom _ => true
  end.

(** One row of [from_features]: the geometry first, then the
    feature's properties. *)
Definition feature_row (feature : value) : result Series :=
  g <- feature.["geometry"] ;;
  geom <- (if truthy g then s <- shape g ;; Ok (VGeom s) else Ok VNone) ;;
  properties <- feature.["properties"] ;;
  match properties with
  | VNone => Ok [("geometry", geom)]
  | VDict d =>
      Ok (fold_left (fun row kv => assign (fst kv) (snd kv) row) d
            [("geometry", geom)])
  | _ => Raise TypeError
  end.

Definition is_geometry (v : value) : bool :=
  match v with
  | VGeom _ | VNone => true
  | _ => false
  end.

(** [gpd.GeoDataFrame.from_features(features, crs=crs)] for a list of
    feature dicts. *)
Definition from_features (features : list value) (crs : string)
  : result GeoDataFrame :=
  rs <- mapM feature_row features ;;
  let df := DataFrame_of rs in
  if forallb (fun r => is_geometry (cell "geometry" (snd r))) (rows df)
  then Ok {| frame := df; crs := crs |}
  else Raise TypeError.

(** ** The isochrone cells *)

Definition latitude : string := "53.404856".
Definition longitude : string := "-2.982918".
Definition TOKEN : string := "mapbox_public_token".

Definition url_iso : string :=
  "https://api.mapbox.com/isochrone/v1/mapbox/walking/" ++ longitude ++
  "," ++ latitude ++
  "?contours_minutes=5,10&contours_colors=6706ce,04e813&polygons=true&access_token="
  ++ TOKEN.

(** [walk_5 = walk['features'][0]; walk_10 = walk['features'][1]] *)
Definition walk_split (walk : value) : result (value * value) :=
  fs0 <- walk.["features"] ;;
  walk_5 <- getindex fs0 0 ;;
  fs1 <- walk.["features"] ;;
  walk_10 <- getindex fs1 1 ;;
  Ok (walk_5, walk_10).

(** The two frames [walk_5] and [walk_10] of the next cell. *)
Definition walk_frames (walk : value) : result (GeoDataFrame * GeoDataFrame) :=
  w <- walk_split walk ;;
  walk_5 <- from_features [fst w] "EPSG:4326" ;;
  walk_10 <- from_features [snd w] "EPSG:4326" ;;
  Ok (walk_5, walk_10).

(** The isochrone cells on the live response. *)
Definition walk_cells : result (GeoDataFrame * GeoDataFrame) :=
  walk <- fetch_json url_iso ;;
  walk_frames walk.

End Notebook.

(** ** Auxiliary notions for the statements *)

(** The labels of a row built by [parse_ss_event], as the code spells
    them. *)
Definition ss_labels : list string :=
  [ "age_range"; "outcome"; "involed_person"; "gender";
    "self_defined_ethnicity"; "street_id"; "longitude"; "latitude";
    "date"; "officer_ethnicity" ].

(** Invariant of the rows of monthly and annual tables. *)
Definition normalized (s : Series) : Prop :=
  labels s = ss_labels /\
  exists lon lat,
    lookup "longitude" s = Some (VFloat lon) /\
    lookup "latitude" s = Some (VFloat lat).

(** Invariant of monthly and annual tables: normalized rows, and the
    ten columns unless there is no row at all. *)
Definition table_invariant (df : DataFrame) : Prop :=
  Forall normalized (map snd (rows df)) /\
  columns df = match rows df with [] => [] | _ => ss_labels end.

(** The float held by a cell of a coordinate column. *)
Definition float_cell (col : string) (s : Series) : float :=
  match cell col s with
  | VFloat f => f
  | _ => nan
  end.

(** A row with the point of its own coordinates appended. *)
Definition tag_row (r : Z * Series) : Z * Series :=
  (fst r,
   (snd r ++ [("geometry",
               VGeom (Point (float_cell "longitude" (snd r))
                            (float_cell "latitude" (snd r))))])%list).

(** The test applied to one cell by [str.contains(pat, na=False)]. *)
Definition cell_contains (col pat : string) (r : Z * Series) : bool :=
  match cell col (snd r) with
  | VStr s => contains pat s
  | _ => false
  end.

(** The same test on a raw record. *)
Definition raw_contains (key pat : string) (cr : value) : bool :=
  match cr.[key] with
  | Ok (VStr s) => contains pat s
  | _ => false
  end.

(** The access paths that [parse_ss_event] reads from a raw record. *)
Definition required_paths : list (list string) :=
  [ ["age_range"]; ["outcome"]; ["involved_person"]; ["gender"];
    ["self_defined_ethnicity"]; ["location"; "street"; "id"];
    ["location"; "longitude"]; ["location"; "latitude"];
    ["datetime"]; ["officer_defined_ethnicity"] ].

(** [obj[k1][k2]...] *)
Fixpoint getpath (obj : value) (path : list string) : result value :=
  match path with
  | [] => Ok obj
  | k :: path' => v <- obj.[k] ;; getpath v path'
  end.

(** The frame without rows or columns, [pd.DataFrame([])]. *)
Definition empty_frame : DataFrame := mkDataFrame [] [].

(** ** GeoJSON input shapes *)

(** A JSON number and the float it stands for. *)
Definition json_number (v : value) (f : float) : Prop :=
  v = VFloat f \/ exists z, v = VInt z /\ float_of_int z = Ok f.

(** A GeoJSON position: an array of two numbers. *)
Definition json_position (o : value) (p : float * float) : Prop :=
  exists a b, o = VList [a; b] /\ json_number a (fst p) /\ json_number b (snd p).

(** First and last vertex coincide. *)
Definition closed (pts : list (float * float)) : bool :=
  match pts with
  | [] => false
  | p :: _ => coord_eqb p (last pts p)
  end.

(** A feature of an isochrone response: a dict with the properties
    (each key once, among them the contour minutes, none of them called
    geometry) and a Polygon geometry of one closed ring of at least four
    positions, whose vertices are [pts]. *)
Definition isochrone_feature (feature : value) (contour : Z)
  (pts : list (float * float)) : Prop :=
  exists props geom ring,
    feature.["properties"] = Ok (VDict props) /\
    NoDup (labels props) /\
    lookup "contour" props = Some (VInt contour) /\
    lookup "geometry" props = None /\
    feature.["geometry"] = Ok (VDict geom) /\
    lookup "type" geom = Some (VStr "Polygon") /\
    lookup "coordinates" geom = Some (VList [VList ring]) /\
    Forall2 json_position ring pts /\
    (4 <= List.length pts)%nat /\
    closed pts = true.

(** ** Recorded data and sample inputs *)

(** The first record of the January 2020 response, as the notebook
    prints it. *)
Definition ss0 : value :=
  VDict [ ("age_range", VStr "over 34");
          ("outcome", VStr "Arrest");
          ("involved_person", VBool true);
          ("self_defined_ethnicity",
            VStr "White - English/Welsh/Scottish/Northern Irish/British");
          ("gender", VStr "Male");
          ("legislation", VStr "Misuse of Drugs Act 1971 (section 23)");
          ("outcome_linked_to_object_of_search", VBool true);
          ("datetime", VStr "2020-01-06T10:11:23+00:00");
          ("removal_of_more_than_outer_clothing", VBool false);
          ("outcome_object",
            VDict [("id", VStr "bu-arrest"); ("name", VStr "Arrest")]);
          ("location",
            VDict [ ("latitude", VStr "53.420561");
                    ("street",
                      VDict [ ("id", VInt 914481);
                              ("name", VStr "On or near Tamar Close") ]);
                    ("longitude", VStr "-2.961643") ]);
          ("operation", VNone);
          ("officer_defined_ethnicity", VStr "White");
          ("type", VStr "Person search");
          ("operation_name", VNone);
          ("object_of_search", VStr "Controlled drugs") ].

(** A stand-in for [float(str)] that knows the coordinate strings of
    the samples; the literals denote the nearest binary64 numbers. *)
Definition sample_float_of_string (s : string) : option float :=
  if String.eqb s "53.420561" then Some 53.420561%float
  else if String.eqb s "-2.961643" then Some (-2.961643)%float
  else if String.eqb s "53.404856" then Some 53.404856%float
  else if String.eqb s "-2.982918" then Some (-2.982918)%float
  else None.

(** [cr] with [cr[k] = v] applied. *)
Definition with_field (k : string) (v : value) (cr : value) : value :=
  match cr with
  | VDict d => VDict (assign k v d)
  | _ => cr
  end.

(** [ss0] whose location has no latitude. *)
Definition ss0_no_latitude : value :=
  with_field "location"
    (VDict [ ("street",
               VDict [ ("id", VInt 914481);
                       ("name", VStr "On or near Tamar Close") ]);
             ("longitude", VStr "-2.961643") ]) ss0.

(** [ss0] with a null involvement flag, a street id sent as text and a
    null timestamp. *)
Definition ss0_untyped : value :=
  with_field "involved_person" VNone
    (with_field "datetime" VNone
      (with_field "location"
        (VDict [ ("latitude", VStr "53.420561");
                 ("street",
                   VDict [ ("id", VStr "914481");
                           ("name", VStr "On or near Tamar Close") ]);
                 ("longitude", VStr "-2.961643") ]) ss0)).

Definition black_label : string :=
  "Black/African/Caribbean/Black British - African".

(** A record at Liverpool Central. *)
Definition ss_black_youth : value :=
  with_field "self_defined_ethnicity" (VStr black_label)
    (with_field "age_range" (VStr "18-24")
      (with_field "location"
        (VDict [ ("latitude", VStr "53.404856");
                 ("street",
                   VDict [ ("id", VInt 912345);
                           ("name", VStr "On or near Ranelagh Street") ]);
                 ("longitude", VStr "-2.982918") ]) ss0)).

Definition ss_black_adult : value :=
  with_field "self_defined_ethnicity" (VStr black_label) ss0.

Definition ss_white_youth : value :=
  with_field "age_range" (VStr "18-24") ss0.

Definition ss_unknown : value :=
  with_field "self_defined_ethnicity" VNone
    (with_field "age_range" VNone ss0).

(** A fake monthly payload: 100 records, 10 of them Black, 5 of those
    aged 18-24. *)
Definition fake_payload : list value :=
  (repeat ss_black_youth 5 ++ repeat ss_white_youth 20 ++
   repeat ss_black_adult 5 ++ repeat ss_unknown 10 ++ repeat ss0 60)%list.

(** A network that answers every request with the JSON array [l]. *)
Definition constant_network (l : list value) (url : string) : result value :=
  Ok (VList l).

(** A network that answers the request for [month] of [year] with
    [l] and every other request with an empty array. *)
Definition one_month_network (month year : string) (l : list value)
  (url : string) : result value :=
  if String.eqb url (month_url month year) then Ok (VList l)
  else Ok (VList []).

(** January 2020 holds one record, March 2020 two, the other months
    none. *)
Definition spring_network (url : string) : result value :=
  if String.eqb url (month_url "01" "2020") then Ok (VList [ss0])
  else if String.eqb url (month_url "03" "2020")
       then Ok (VList [ss_black_youth; ss0])
       else Ok (VList []).

Definition sample_runtime (network : string -> result value) : Runtime :=
  {| float_of_string := sample_float_of_string; fetch_json := network |}.

(** No record anywhere. *)
Definition quiet_runtime : Runtime := sample_runtime (constant_network []).

(** March 2020 holds a record without latitude between two good ones. *)
Definition march_runtime : Runtime :=
  sample_runtime
    (one_month_network "03" "2020" [ss0; ss0_no_latitude; ss0]).

Definition spring_runtime : Runtime := sample_runtime spring_network.

(** January 2020 holds the fake payload, the other months nothing. *)
Definition fake_runtime : Runtime :=
  sample_runtime (one_month_network "01" "2020" fake_payload).

(** Every month holds the fake payload. *)
Definition repeating_runtime : Runtime :=
  sample_runtime (constant_network fake_payload).

(** A small spatial table and one of its boolean-mask selections. *)
Definition tiny_table : GeoDataFrame :=
  {| frame :=
       {| columns := ["self_defined_ethnicity"];
          rows := [ (0, [("self_defined_ethnicity", VStr black_label)]);
                    (1, [("self_defined_ethnicity", VNone)]);
                    (0, [("self_defined_ethnicity", VStr "Other")]) ] |};
     crs := "EPSG:27700" |}.

Definition tiny_subset : GeoDataFrame :=
  {| frame :=
       {| columns := ["self_defined_ethnicity"];
          rows := [ (0, [("self_defined_ethnicity", VStr black_label)]) ] |};
     crs := "EPSG:27700" |}.

(** The ring of the first recorded feature (28 positions). *)
Definition recorded_ring_0 : list (float * float) :=
  [ ((-2.978886)%float, 53.409888%float);
    ((-2.975918)%float, 53.408865%float);
    ((-2.974918)%float, 53.409182%float);
    ((-2.973336)%float, 53.408856%float);
    ((-2.972172)%float, 53.407856%float);
    ((-2.971969)%float, 53.406856%float);
    ((-2.97068)%float, 53.405856%float);
    ((-2.97165)%float, 53.404856%float);
    ((-2.971143)%float, 53.403856%float);
    ((-2.972649)%float, 53.402856%float);
    ((-2.972188)%float, 53.401856%float);
    ((-2.973918)%float, 53.400065%float);
    ((-2.975918)%float, 53.399147%float);
    ((-2.977918)%float, 53.399598%float);
    ((-2.983918)%float, 53.39852%float);
    ((-2.986918)%float, 53.398461%float);
    ((-2.989608)%float, 53.399856%float);
    ((-2.98975)%float, 53.401024%float);
    ((-2.990918)%float, 53.400963%float);
    ((-2.992679)%float, 53.401856%float);
    ((-2.992338)%float, 53.402856%float);
    ((-2.993605)%float, 53.404856%float);
    ((-2.99281)%float, 53.406856%float);
    ((-2.990744)%float, 53.408856%float);
    ((-2.988103)%float, 53.410041%float);
    ((-2.984079)%float, 53.410017%float);
    ((-2.982918)%float, 53.410703%float);
    ((-2.978886)%float, 53.409888%float) ].

(** The ring of the second recorded feature (16 positions). *)
Definition recorded_ring_1 : list (float * float) :=
  [ ((-2.981696)%float, 53.407078%float);
    ((-2.981197)%float, 53.406577%float);
    ((-2.97991)%float, 53.406848%float);
    ((-2.977072)%float, 53.405856%float);
    ((-2.976778)%float, 53.404856%float);
    ((-2.97777)%float, 53.403856%float);
    ((-2.977666)%float, 53.402604%float);
    ((-2.979805)%float, 53.401856%float);
    ((-2.980918)%float, 53.402198%float);
    ((-2.983918)%float, 53.401447%float);
    ((-2.985918)%float, 53.401583%float);
    ((-2.987925)%float, 53.402856%float);
    ((-2.988279)%float, 53.404856%float);
    ((-2.987275)%float, 53.406213%float);
    ((-2.982918)%float, 53.407705%float);
    ((-2.981696)%float, 53.407078%float) ].

Definition ring_value (pts : list (float * float)) : value :=
  VList (map (fun p => VList [VFloat (fst p); VFloat (snd p)]) pts).

Definition recorded_properties (colour : string) (contour : Z)
  : list (string * value) :=
  [ ("fill", VStr colour);
    ("fillOpacity", VFloat 0.33%float);
    ("fill-opacity", VFloat 0.33%float);
    ("fillColor", VStr colour);
    ("color", VStr colour);
    ("contour", VInt contour);
    ("opacity", VFloat 0.33%float);
    ("metric", VStr "time") ].

Definition recorded_feature (colour : string) (contour : Z)
  (ring : list (float * float)) : value :=
  VDict [ ("properties", VDict (recorded_properties colour contour));
          ("geometry",
            VDict [ ("coordinates", VList [ring_value ring]);
                    ("type", VStr "Polygon") ]);
          ("type", VStr "Feature") ].

(** The isochrone response printed in the notebook. *)
Definition walk_recorded : value :=
  VDict [ ("features",
            VList [ recorded_feature "#04e813" 10 recorded_ring_0;
                    recorded_feature "#6706ce" 5 recorded_ring_1 ]);
          ("type", VStr "FeatureCollection") ].

(** A response whose ring is left open: the last position does not
    repeat the first. *)
Definition open_ring : list (float * float) :=
  [ (0%float, 0%float); (1%float, 0%float);
    (1%float, 1%float); (0%float, 1%float) ].

Definition open_feature : value :=
  recorded_feature "#6706ce" 5 open_ring.

(** ** The remaining subset and ratio cells *)

(** Element-wise [mask1 & mask2] of two boolean columns over the same
    index. *)
Fixpoint mask_and (a b : list bool) : list bool :=
  match a, b with
  | x :: a', y :: b' => (x && y) :: mask_and a' b'
  | _, _ => []
  end.

(** [gdf[gdf[col1].str.contains(pat1, na=False) &
         gdf[col2].str.contains(pat2, na=False)]] *)
Definition where_both (gdf : GeoDataFrame) (col1 pat1 col2 pat2 : string)
  : result GeoDataFrame :=
  column1 <- df_getitem (frame gdf) col1 ;;
  mask1 <- str_contains pat1 column1 ;;
  column2 <- df_getitem (frame gdf) col2 ;;
  mask2 <- str_contains pat2 column2 ;;
  Ok {| frame :=
          {| columns := columns (frame gdf);
             rows := boolean_mask (mask_and mask1 mask2) (rows (frame gdf)) |};
        crs := crs gdf |}.



Definition arrested (crimes : GeoDataFrame) : result GeoDataFrame :=
  where_contains crimes "outcome" "Arrest".

Definition bk_arrested (crimes : GeoDataFrame) : result GeoDataFrame :=
  where_both crimes "self_defined_ethnicity" "Black" "outcome" "Arrest".

Definition wh_arrested (crimes : GeoDataFrame) : result GeoDataFrame :=
  where_both crimes "self_defined_ethnicity" "White" "outcome" "Arrest".

Definition b_2_b (crimes : GeoDataFrame) : result GeoDataFrame :=
  where_both crimes "officer_ethnicity" "Black"
    "self_defined_ethnicity" "Black".

(** [(len(part) / len(whole)) * 100], the shape of the arrest and
    officer percentages. *)
Definition percentage_of (part whole : GeoDataFrame) : result Q :=
  r <- truediv (glen part) (glen whole) ;;
  Ok (r * 100)%Q.

(** [range(n)] as index labels. *)
Definition range (n : nat) : list Z := map Z.of_nat (seq 0 n).

(** The coordinate values of a raw record through [float]. *)
Definition float_at {rt : Runtime} (cr : value) (path : list string)
  : result float :=
  v <- getpath cr path ;; py_float v.

(** [ss0] with another legislation and search object. *)
Definition ss0_other_grounds : value :=
  with_field "legislation" (VStr "Police and Criminal Evidence Act 1984 (section 1)")
    (with_field "object_of_search" (VStr "Stolen goods") ss0).

(** [ss0] with a null location, and with a longitude that is not a
    number. *)
Definition ss0_no_location : value := with_field "location" VNone ss0.

Definition ss0_bad_longitude : value :=
  with_field "location"
    (VDict [ ("latitude", VStr "53.420561");
             ("street",
               VDict [ ("id", VInt 914481);
                       ("name", VStr "On or near Tamar Close") ]);
             ("longitude", VStr "west") ]) ss0.

(** May 2020 cannot be fetched, July 2020 holds a record without
    latitude, the other months are empty. *)
Definition failing_network (url : string) : result value :=
  if String.eqb url (month_url "05" "2020") then Raise ValueError
  else if String.eqb url (month_url "07" "2020")
       then Ok (VList [ss0_no_latitude])
       else Ok (VList []).

Definition failing_runtime : Runtime := sample_runtime failing_network.

(** A label that contains both words. *)
Definition mixed_label : string :=
  "Mixed/Multiple ethnic groups - White and Black Caribbean".

Definition ss_mixed : value :=
  with_field "self_defined_ethnicity" (VStr mixed_label) ss0.

(** A response of three features, and one of a single feature. *)
Definition walk_three : value :=
  VDict [ ("features",
            VList [ recorded_feature "#04e813" 15 recorded_ring_0;
                    recorded_feature "#6706ce" 10 recorded_ring_1;
                    recorded_feature "#6706ce" 5 recorded_ring_1 ]);
          ("type", VStr "FeatureCollection") ].

Definition walk_one : value :=
  VDict [ ("features",
            VList [ recorded_feature "#6706ce" 5 recorded_ring_1 ]);
          ("type", VStr "FeatureCollection") ].

(** An error body as an API sends it. *)
Definition error_body : value :=
  VDict [ ("message", VStr "Not Authorized - Invalid Token") ].

(** The spatial table of the sample network (three rows), and a
    table with a label containing both words (four rows). *)
Definition spring_crimes : GeoDataFrame :=
  match crimes_geodf_20 (rt := spring_runtime) with
  | Ok gdf => gdf
  | Raise _ => {| frame := empty_frame; crs := "" |}
  end.

Definition mixed_runtime : Runtime :=
  sample_runtime
    (one_month_network "02" "2020"
       [ss_mixed; ss_black_youth; ss_unknown; ss0]).

Definition mixed_crimes : GeoDataFrame :=
  match crimes_geodf_20 (rt := mixed_runtime) with
  | Ok gdf => gdf
  | Raise _ => {| frame := empty_frame; crs := "" |}
  end.

(** The sample network with one more answer, for January 2019. *)
Definition spring_network_2019 (url : string) : result value :=
  if String.eqb url (month_url "01" "2019") then Ok (VList [ss_white_youth])
  else spring_network url.

(** ** Text columns *)

(** The cells of a column, top to bottom. *)
Definition column_of (col : string) (rs : list (Z * Series)) : list value :=
  map (fun r => cell col (snd r)) rs.

(** A cell that holds a string or a null. *)
Definition is_text (v : value) : bool :=
  match v with
  | VStr _ | VNone => true
  | _ => false
  end.

(** A column of strings and nulls, as the API sends the descriptive
    fields. *)
Definition text_column (gdf : GeoDataFrame) (col : string) : Prop :=
  forallb is_text (column_of col (rows (frame gdf))) = true.

(** [ss0] with the outcome [false] in place of a text, alone and as a
    Black citizen's record. *)
Definition ss0_false_outcome : value := with_field "outcome" (VBool false) ss0.

Definition ss_black_false_outcome : value :=
  with_field "outcome" (VBool false) ss_black_adult.

(** Every outcome of April 2020 is [false]. *)
Definition false_outcome_runtime : Runtime :=
  sample_runtime
    (one_month_network "04" "2020" [ss0_false_outcome; ss_black_false_outcome]).

(** The outcome is [false] on the Black rows of June 2020 and a text on
    the others. *)
Definition part_false_runtime : Runtime :=
  sample_runtime
    (one_month_network "06" "2020" [ss_black_false_outcome; ss0]).

(** The age range is the number 5 on a Black citizen's record and a
    text on the other record of August 2020. *)
Definition ss_black_numeric_age : value :=
  with_field "age_range" (VInt 5) ss_black_adult.

Definition numeric_age_runtime : Runtime :=
  sample_runtime
    (one_month_network "08" "2020" [ss_black_numeric_age; ss_white_youth]).

(** * Properties *)

(** ** The error monad *)

Lemma is_ok_true {A : Type} (m : result A) :
  is_ok m = true -> exists a, m = Ok a.
Proof. destruct m; simpl; [eauto | discriminate]. Qed.

Lemma is_ok_bind_false {A B : Type} (m : result A) (k : A -> result B) :
  is_ok m = false -> is_ok (bind m k) = false.
Proof. destruct m; simpl; [discriminate | reflexivity]. Qed.

(** Splits [H : bind m k = Ok b] into the value of [m] and the rest. *)
Ltac bind_inv H :=
  match type of H with
  | bind ?m _ = Ok _ =>
      let a := fresh "v" in
      let E := fresh "E" in
      revert H; destruct m as [a|] eqn:E; simpl; intro H;
      [ | discriminate H ]
  end.

Lemma mapM_length {A B : Type} (f : A -> result B) (l : list A) (bs : list B) :
  mapM f l = Ok bs -> List.length bs = List.length l.
Proof.
  revert bs; induction l as [|a l IH]; simpl; intros bs H.
  - injection H as <-; reflexivity.
  - bind_inv H. bind_inv H. injection H as <-. simpl. f_equal. now apply IH.
Qed.

Lemma mapM_Forall2 {A B : Type} (f : A -> result B) (l : list A) (bs : list B) :
  mapM f l = Ok bs <-> Forall2 (fun a b => f a = Ok b) l bs.
Proof.
  split.
  - revert bs; induction l as [|a l IH]; simpl; intros bs H.
    + injection H as <-; constructor.
    + bind_inv H. bind_inv H. injection H as <-. constructor; auto.
  - induction 1 as [|a b l bs Hab _ IH]; simpl; [reflexivity|].
    rewrite Hab; simpl. rewrite IH; reflexivity.
Qed.

Lemma mapM_all {A B : Type} (f : A -> result B) (P : B -> Prop)
  (l : list A) (bs : list B) :
  (forall a b, f a = Ok b -> P b) -> mapM f l = Ok bs -> Forall P bs.
Proof.
  intros HP H. apply mapM_Forall2 in H.
  induction H as [|a b l bs Hab _ IH]; constructor; eauto.
Qed.

Lemma mapM_total {A B : Type} (f : A -> result B) (l : list A) :
  Forall (fun a => is_ok (f a) = true) l -> exists bs, mapM f l = Ok bs.
Proof.
  induction 1 as [|a l Ha _ [bs IH]]; simpl; [eauto|].
  apply is_ok_true in Ha as [b Hb]. rewrite Hb, IH; simpl; eauto.
Qed.

Lemma mapM_raise_in {A B : Type} (f : A -> result B) (l : list A) (a : A) :
  In a l -> is_ok (f a) = false -> is_ok (mapM f l) = false.
Proof.
  induction l as [|x l IH]; simpl; [tauto|].
  intros [->|Hin] Ha.
  - now apply is_ok_bind_false.
  - destruct (f x); simpl; [|reflexivity].
    apply is_ok_bind_false; auto.
Qed.

Lemma mapM_first_raise {A B : Type} (f : A -> result B) (pre post : list A)
  (a : A) (e : exn) :
  Forall (fun x => is_ok (f x) = true) pre -> f a = Raise e ->
  mapM f (pre ++ a :: post) = Raise e.
Proof.
  induction 1 as [|x pre Hx _ IH]; simpl; intro Ha.
  - rewrite Ha; reflexivity.
  - apply is_ok_true in Hx as [b ->]; simpl. rewrite IH; auto.
Qed.

Section Normalizer.

Context {rt : Runtime}.

(** ** The record normalizer *)

(** What an accepted record looks like: every access succeeded and the
    row holds the values read, the two coordinates through [float]. *)
Lemma parse_ss_event_ok_inv (cr : value) (row : Series) :
  parse_ss_event cr = Ok row ->
  exists a o inv g e loc street sid lonv lon latv lat d off,
    cr.["age_range"] = Ok a /\
    cr.["outcome"] = Ok o /\
    cr.["involved_person"] = Ok inv /\
    cr.["gender"] = Ok g /\
    cr.["self_defined_ethnicity"] = Ok e /\
    cr.["location"] = Ok loc /\
    loc.["street"] = Ok street /\
    street.["id"] = Ok sid /\
    loc.["longitude"] = Ok lonv /\ py_float lonv = Ok lon /\
    loc.["latitude"] = Ok latv /\ py_float latv = Ok lat /\
    cr.["datetime"] = Ok d /\
    cr.["officer_defined_ethnicity"] = Ok off /\
    row = [ ("age_range", a); ("outcome", o); ("involed_person", inv);
            ("gender", g); ("self_defined_ethnicity", e);
            ("street_id", sid); ("longitude", VFloat lon);
            ("latitude", VFloat lat); ("date", d);
            ("officer_ethnicity", off) ].
Proof.
  unfold parse_ss_event. intro H.
  repeat bind_inv H.
  injection H as <-.
  repeat eexists; eauto.
Qed.

(** C2, amended: an accepted record becomes a row of exactly ten
    fields in a fixed order, nine of them named age_range, outcome,
    gender, self_defined_ethnicity, street_id, longitude, latitude, date
    and officer_ethnicity, the third one holding the raw involved_person
    value.  longitude and latitude are floats obtained by [float] from
    the location strings; the other eight values are those of the raw
    record, passed through unchanged and unchecked. *)
Theorem normalized_record_fields (cr : value) (row : Series) :
  parse_ss_event cr = Ok row ->
  exists third a o inv g e loc street sid lonv lon latv lat d off,
    row = [ ("age_range", a); ("outcome", o); (third, inv);
            ("gender", g); ("self_defined_ethnicity", e);
            ("street_id", sid); ("longitude", VFloat lon);
            ("latitude", VFloat lat); ("date", d);
            ("officer_ethnicity", off) ] /\
    cr.["age_range"] = Ok a /\
    cr.["outcome"] = Ok o /\
    cr.["involved_person"] = Ok inv /\
    cr.["gender"] = Ok g /\
    cr.["self_defined_ethnicity"] = Ok e /\
    cr.["location"] = Ok loc /\
    loc.["street"] = Ok street /\
    street.["id"] = Ok sid /\
    loc.["longitude"] = Ok lonv /\ py_float lonv = Ok lon /\
    loc.["latitude"] = Ok latv /\ py_float latv = Ok lat /\
    cr.["datetime"] = Ok d /\
    cr.["officer_defined_ethnicity"] = Ok off.
Proof.
  intro H.
  destruct (parse_ss_event_ok_inv cr row H)
    as (a & o & inv & g & e & loc & street & sid & lonv & lon & latv & lat
        & d & off & Ha & Ho & Hi & Hg & He & Hl & Hs & Hsid & Hlon & Hflon
        & Hlat & Hflat & Hd & Hoff & ->).
  exists "involed_person", a, o, inv, g, e, loc, street, sid, lonv, lon,
    latv, lat, d, off.
  repeat split; assumption.
Qed.

(** A record that lacks one of the paths read by the normalizer is
    rejected. *)
Lemma missing_path_rejected (cr : value) (path : list string) :
  In path required_paths ->
  is_ok (getpath cr path) = false ->
  is_ok (parse_ss_event cr) = false.
Proof.
  intros Hin Hmiss.
  destruct (parse_ss_event cr) as [row|] eqn:Hrow; [|reflexivity].
  exfalso.
  destruct (parse_ss_event_ok_inv cr row Hrow)
    as (a & o & inv & g & e & loc & street & sid & lonv & lon & latv & lat
        & d & off & Ha & Ho & Hi & Hg & He & Hl & Hs & Hsid & Hlon & Hflon
        & Hlat & Hflat & Hd & Hoff & _).
  simpl in Hin.
  repeat (destruct Hin as [<-|Hin];
          [ simpl in Hmiss;
            repeat match goal with
              | E : ?m = Ok _ |- _ =>
                  rewrite E in Hmiss; simpl in Hmiss
              end;
            discriminate Hmiss | ]).
  exact Hin.
Qed.

(** The loop of [parsing] is a left-to-right map. *)
Lemma parsing_loop_mapM (crimes : list value) (parsed : list Series) :
  parsing_loop crimes parsed =
  (more <- mapM parse_ss_event crimes ;; Ok (parsed ++ more)%list).
Proof.
  revert parsed; induction crimes as [|cr crimes IH]; intro parsed; simpl.
  - now rewrite app_nil_r.
  - destruct (parse_ss_event cr) as [pc|e]; simpl; [|reflexivity].
    rewrite IH. destruct (mapM parse_ss_event crimes); simpl; [|reflexivity].
    now rewrite <- app_assoc.
Qed.

Lemma parsing_list (crimes : list value) :
  parsing (VList crimes) =
  (parsed <- mapM parse_ss_event crimes ;; Ok (DataFrame_of parsed)).
Proof.
  unfold parsing; simpl. rewrite parsing_loop_mapM.
  destruct (mapM parse_ss_event crimes); reflexivity.
Qed.

(** X5: parsing stops at the first rejected record, with that record's
    exception: the records after it are not looked at and the rows
    parsed before it are lost. *)
Lemma parsing_first_rejected (pre post : list value) (cr : value) (e : exn) :
  Forall (fun x => is_ok (parse_ss_event x) = true) pre ->
  parse_ss_event cr = Raise e ->
  parsing (VList (pre ++ cr :: post)) = Raise e.
Proof.
  intros Hpre Hcr. rewrite parsing_list.
  now rewrite (mapM_first_raise _ pre post cr e Hpre Hcr).
Qed.

(** C3, amended: a record that lacks location.latitude, or any other
    path the normalizer reads, makes the normalizer raise; parsing the
    batch that holds it raises too, so the month yields no table, the
    twelve-month concatenation is abandoned and no spatial table is
    built.  Nothing is skipped or counted. *)
Theorem missing_key_aborts_pipeline (batch : list value) (cr : value)
  (path : list string) :
  In cr batch ->
  In path required_paths ->
  is_ok (getpath cr path) = false ->
  is_ok (parse_ss_event cr) = false /\
  is_ok (parsing (VList batch)) = false /\
  forall month year : string,
    In month months ->
    fetch_json (month_url month year) = Ok (VList batch) ->
    is_ok (get_month_crime month year) = false /\
    is_ok (yearly_crimes year) = false /\
    (year = "2020" -> is_ok crimes_geodf_20 = false).
Proof.
  intros Hin Hpath Hmiss.
  pose proof (missing_path_rejected cr path Hpath Hmiss) as Hrej.
  assert (Hbatch : is_ok (parsing (VList batch)) = false).
  { rewrite parsing_list. apply is_ok_bind_false.
    now apply mapM_raise_in with (a := cr). }
  split; [exact Hrej|]. split; [exact Hbatch|].
  intros month year Hmonth Hfetch.
  assert (Hget : is_ok (get_month_crime month year) = false).
  { unfold get_month_crime. rewrite Hfetch. exact Hbatch. }
  assert (Hyear : is_ok (yearly_crimes year) = false).
  { unfold yearly_crimes. apply is_ok_bind_false.
    now apply mapM_raise_in with (a := month). }
  split; [exact Hget|]. split; [exact Hyear|].
  intros ->. unfold crimes_geodf_20, yearly_crimes_20.
  now apply is_ok_bind_false.
Qed.

End Normalizer.

(** The recorded record is accepted and yields the row the notebook
    shows in its first frame. *)
Example parse_ss0 :
  parse_ss_event (rt := quiet_runtime) ss0 =
  Ok [ ("age_range", VStr "over 34");
       ("outcome", VStr "Arrest");
       ("involed_person", VBool true);
       ("gender", VStr "Male");
       ("self_defined_ethnicity",
         VStr "White - English/Welsh/Scottish/Northern Irish/British");
       ("street_id", VInt 914481);
       ("longitude", VFloat (-2.961643)%float);
       ("latitude", VFloat 53.420561%float);
       ("date", VStr "2020-01-06T10:11:23+00:00");
       ("officer_ethnicity", VStr "White") ].
Proof. reflexivity. Qed.

(** On the recorded record. *)
Lemma normalized_record_fields_witness :
  parse_ss_event (rt := quiet_runtime) ss0 =
    Ok [ ("age_range", VStr "over 34"); ("outcome", VStr "Arrest");
         ("involed_person", VBool true); ("gender", VStr "Male");
         ("self_defined_ethnicity",
           VStr "White - English/Welsh/Scottish/Northern Irish/British");
         ("street_id", VInt 914481);
         ("longitude", VFloat (-2.961643)%float);
         ("latitude", VFloat 53.420561%float);
         ("date", VStr "2020-01-06T10:11:23+00:00");
         ("officer_ethnicity", VStr "White") ] /\
  exists third a o inv g e loc street sid lonv lon latv lat d off,
    [ ("age_range", VStr "over 34"); ("outcome", VStr "Arrest");
      ("involed_person", VBool true); ("gender", VStr "Male");
      ("self_defined_ethnicity",
        VStr "White - English/Welsh/Scottish/Northern Irish/British");
      ("street_id", VInt 914481);
      ("longitude", VFloat (-2.961643)%float);
      ("latitude", VFloat 53.420561%float);
      ("date", VStr "2020-01-06T10:11:23+00:00");
      ("officer_ethnicity", VStr "White") ] =
    [ ("age_range", a); ("outcome", o); (third, inv);
      ("gender", g); ("self_defined_ethnicity", e);
      ("street_id", sid); ("longitude", VFloat lon);
      ("latitude", VFloat lat); ("date", d);
      ("officer_ethnicity", off) ] /\
    ss0.["age_range"] = Ok a /\
    ss0.["outcome"] = Ok o /\
    ss0.["involved_person"] = Ok inv /\
    ss0.["gender"] = Ok g /\
    ss0.["self_defined_ethnicity"] = Ok e /\
    ss0.["location"] = Ok loc /\
    loc.["street"] = Ok street /\
    street.["id"] = Ok sid /\
    loc.["longitude"] = Ok lonv /\
    py_float (rt := quiet_runtime) lonv = Ok lon /\
    loc.["latitude"] = Ok latv /\
    py_float (rt := quiet_runtime) latv = Ok lat /\
    ss0.["datetime"] = Ok d /\
    ss0.["officer_defined_ethnicity"] = Ok off.
Proof.
  split; [reflexivity|].
  apply (normalized_record_fields (rt := quiet_runtime) ss0).
  reflexivity.
Defined.

(** C2 as stated fails: this accepted record yields a row without a
    field named involved_person, whose involvement value is not a
    boolean, whose street_id is not an integer and whose date is not a
    timestamp string. *)
Lemma normalized_record_untyped :
  exists row,
    parse_ss_event (rt := quiet_runtime) ss0_untyped = Ok row /\
    row = [ ("age_range", VStr "over 34"); ("outcome", VStr "Arrest");
            ("involed_person", VNone); ("gender", VStr "Male");
            ("self_defined_ethnicity",
              VStr "White - English/Welsh/Scottish/Northern Irish/British");
            ("street_id", VStr "914481");
            ("longitude", VFloat (-2.961643)%float);
            ("latitude", VFloat 53.420561%float);
            ("date", VNone);
            ("officer_ethnicity", VStr "White") ] /\
    lookup "involved_person" row = None /\
    ~ (exists b, nth_error (map snd row) 2 = Some (VBool b)) /\
    ~ (exists z, lookup "street_id" row = Some (VInt z)) /\
    ~ (exists s, lookup "date" row = Some (VStr s)).
Proof.
  eexists. split; [reflexivity|]. split; [reflexivity|].
  split; [reflexivity|].
  repeat split; intros [x Hx]; discriminate Hx.
Qed.

(** On a March batch with a record that has no latitude. *)
Lemma missing_key_aborts_pipeline_witness :
  (In ss0_no_latitude [ss0; ss0_no_latitude; ss0] /\
   In ["location"; "latitude"] required_paths /\
   is_ok (getpath ss0_no_latitude ["location"; "latitude"]) = false) /\
  is_ok (parse_ss_event (rt := march_runtime) ss0_no_latitude) = false /\
  is_ok (parsing (rt := march_runtime)
           (VList [ss0; ss0_no_latitude; ss0])) = false /\
  forall month year : string,
    In month months ->
    fetch_json (Runtime := march_runtime) (month_url month year) =
      Ok (VList [ss0; ss0_no_latitude; ss0]) ->
    is_ok (get_month_crime (rt := march_runtime) month year) = false /\
    is_ok (yearly_crimes (rt := march_runtime) year) = false /\
    (year = "2020" -> is_ok (crimes_geodf_20 (rt := march_runtime)) = false).
Proof.
  split.
  - split; [right; left; reflexivity|].
    split; [do 7 right; left; reflexivity | reflexivity].
  - apply (missing_key_aborts_pipeline (rt := march_runtime)
             [ss0; ss0_no_latitude; ss0] ss0_no_latitude
             ["location"; "latitude"]).
    + right; left; reflexivity.
    + do 7 right; left; reflexivity.
    + reflexivity.
Defined.

(** C3 as stated fails: a batch with one record lacking
    location.latitude between two good records yields no table at all;
    the month, the year and the spatial table all end in the key
    error. *)
Lemma missing_latitude_stops_everything :
  parsing (rt := march_runtime) (VList [ss0; ss0_no_latitude; ss0]) =
    Raise (KeyError "latitude") /\
  get_month_crime (rt := march_runtime) "03" "2020" =
    Raise (KeyError "latitude") /\
  yearly_crimes_20 (rt := march_runtime) = Raise (KeyError "latitude") /\
  crimes_geodf_20 (rt := march_runtime) = Raise (KeyError "latitude").
Proof. repeat split; vm_compute; reflexivity. Qed.

(** ** The accumulator *)

Lemma concat_rows (frames : list DataFrame) :
  frames <> [] ->
  exists df, concat frames = Ok df /\
             rows df = List.concat (map rows frames) /\
             columns df = fold_left union (map columns frames) [].
Proof.
  destruct frames as [|f frames]; [congruence|].
  intros _. eexists; split; [reflexivity|]. split; reflexivity.
Qed.

Lemma len_concat (frames : list DataFrame) :
  List.length (List.concat (map rows frames)) = list_sum (map len frames).
Proof.
  rewrite length_concat, map_map. reflexivity.
Qed.

Lemma all_empty_concat (frames : list DataFrame) :
  Forall (fun t => len t = 0%nat) frames ->
  List.concat (map rows frames) = [].
Proof.
  induction 1 as [|t frames Ht _ IH]; simpl; [reflexivity|].
  unfold len in Ht. apply length_zero_iff_nil in Ht.
  rewrite Ht, IH. reflexivity.
Qed.

Section Accumulator.

Context {rt : Runtime}.

(** C1: when the twelve monthly calls return the tables [tables], in
    the order of the months 01 to 12, the annual table is produced and
    its rows are the rows of the first table followed by those of the
    second, and so on, each month's rows in their own order, nothing
    sorted, dropped or merged; its length is the sum of the twelve
    lengths, and twelve empty tables give an empty annual table. *)
Theorem yearly_crimes_concatenates (year : string) (tables : list DataFrame) :
  Forall2 (fun month t => get_month_crime month year = Ok t) months tables ->
  exists annual,
    yearly_crimes year = Ok annual /\
    List.length tables = 12%nat /\
    rows annual = List.concat (map rows tables) /\
    len annual = list_sum (map len tables) /\
    (Forall (fun t => len t = 0%nat) tables ->
     rows annual = [] /\ len annual = 0%nat).
Proof.
  intro Hmonths.
  assert (Hlen : List.length tables = 12%nat).
  { apply Forall2_length in Hmonths. now rewrite <- Hmonths. }
  assert (Hne : tables <> []).
  { intros ->. discriminate Hlen. }
  destruct (concat_rows tables Hne) as (annual & Hconcat & Hrows & _).
  exists annual.
  split.
  { unfold yearly_crimes.
    apply mapM_Forall2 in Hmonths. rewrite Hmonths. exact Hconcat. }
  split; [exact Hlen|].
  split; [exact Hrows|].
  split.
  { unfold len at 1. rewrite Hrows. apply len_concat. }
  intro Hempty.
  assert (Hnil : rows annual = []).
  { rewrite Hrows. now apply all_empty_concat. }
  split; [exact Hnil|]. unfold len. now rewrite Hnil.
Qed.

End Accumulator.

(** On the sample network: one row in January, two in March. *)
Lemma yearly_crimes_concatenates_witness :
  exists tables,
    Forall2 (fun month t =>
               get_month_crime (rt := spring_runtime) month "2020" = Ok t)
      months tables /\
    exists annual,
      yearly_crimes (rt := spring_runtime) "2020" = Ok annual /\
      List.length tables = 12%nat /\
      rows annual = List.concat (map rows tables) /\
      len annual = list_sum (map len tables) /\
      (Forall (fun t => len t = 0%nat) tables ->
       rows annual = [] /\ len annual = 0%nat).
Proof.
  eexists.
  assert (H : Forall2 (fun month t =>
               get_month_crime (rt := spring_runtime) month "2020" = Ok t)
            months
            (map (fun month =>
                    match get_month_crime (rt := spring_runtime) month "2020"
                    with Ok t => t | Raise _ => mkDataFrame [] [] end)
               months)).
  { unfold months. simpl map.
    repeat (constructor; [vm_compute; reflexivity|]). constructor. }
  split; [exact H|].
  exact (yearly_crimes_concatenates (rt := spring_runtime) "2020" _ H).
Defined.

(** The 2020 table of the sample network: January's row, then March's
    two rows, each month numbered from 0. *)
Example yearly_crimes_20_spring :
  (annual <- yearly_crimes_20 (rt := spring_runtime) ;;
   Ok (map fst (rows annual),
       map (fun r => cell "age_range" (snd r)) (rows annual),
       len annual)) =
  Ok ([0; 0; 1], [VStr "over 34"; VStr "18-24"; VStr "over 34"], 3%nat).
Proof. vm_compute. reflexivity. Qed.

(** Twelve empty months give the frame without rows or columns. *)
Example yearly_crimes_20_quiet :
  yearly_crimes_20 (rt := quiet_runtime) = Ok (mkDataFrame [] []).
Proof. vm_compute. reflexivity. Qed.

(** ** Tables and their invariant *)

Lemma lookup_not_mem {A : Type} (k : string) (s : list (string * A)) :
  mem k (labels s) = false -> lookup k s = None.
Proof.
  induction s as [|[k' v'] s IH]; simpl; [reflexivity|].
  destruct (String.eqb k k'); simpl; [discriminate | exact IH].
Qed.

Lemma assign_fresh {A : Type} (k : string) (v : A) (s : list (string * A)) :
  lookup k s = None -> assign k v s = (s ++ [(k, v)])%list.
Proof.
  induction s as [|[k' v'] s IH]; simpl; [reflexivity|].
  destruct (String.eqb k k'); [discriminate|].
  intro H. now rewrite IH.
Qed.

Lemma enumerate_snd {A : Type} (start : Z) (l : list A) :
  map snd (enumerate start l) = l.
Proof.
  revert start; induction l as [|a l IH]; intro start; simpl;
    [reflexivity | now rewrite IH].
Qed.

Lemma enumerate_length {A : Type} (start : Z) (l : list A) :
  List.length (enumerate start l) = List.length l.
Proof.
  revert start; induction l as [|a l IH]; intro start; simpl;
    [reflexivity | now rewrite IH].
Qed.

Lemma fold_union_labels (ls : list (list string)) :
  Forall (fun l => l = [] \/ l = ss_labels) ls ->
  fold_left union ls ss_labels = ss_labels.
Proof.
  induction 1 as [|l ls [-> | ->] _ IH]; simpl; [reflexivity | exact IH..].
Qed.

Lemma normalized_labels (s : Series) : normalized s -> labels s = ss_labels.
Proof. now intros [H _]. Qed.

Lemma DataFrame_of_invariant (parsed : list Series) :
  Forall normalized parsed -> table_invariant (DataFrame_of parsed).
Proof.
  intro H. split; simpl.
  - now rewrite enumerate_snd.
  - destruct parsed as [|s parsed]; [reflexivity|]. simpl.
    inversion H as [|? ? Hs Hrest]; subst.
    rewrite (normalized_labels s Hs).
    change (union [] ss_labels) with ss_labels.
    apply fold_union_labels.
    apply Forall_map. eapply Forall_impl; [|exact Hrest].
    intros a Ha. right. now apply normalized_labels.
Qed.

Lemma concat_invariant (frames : list DataFrame) (df : DataFrame) :
  Forall table_invariant frames ->
  concat frames = Ok df ->
  table_invariant df.
Proof.
  intros Hinv Hconcat.
  assert (Hne : frames <> []) by (intros ->; discriminate Hconcat).
  destruct (concat_rows frames Hne) as (df' & Hdf & Hrows & Hcols).
  rewrite Hdf in Hconcat. injection Hconcat as <-.
  unfold table_invariant. rewrite Hrows, Hcols. clear Hne Hdf Hrows Hcols.
  split.
  - rewrite concat_map. apply Forall_concat.
    apply Forall_map. apply Forall_map. eapply Forall_impl; [|exact Hinv].
    now intros a [Ha _].
  - assert (Hcols : Forall (fun l => l = [] \/ l = ss_labels) (map columns frames)).
    { apply Forall_map. eapply Forall_impl; [|exact Hinv].
      intros a [_ Ha]. rewrite Ha. destruct (rows a); auto. }
    induction Hinv as [|a fs [Ha Hc] Hfs IH]; [reflexivity|].
    simpl. rewrite Hc.
    destruct (rows a) as [|r rs] eqn:Hr.
    + simpl. apply IH. now inversion Hcols.
    + change (union [] ss_labels) with ss_labels.
      simpl. apply fold_union_labels. now inversion Hcols.
Qed.

Section Tables.

Context {rt : Runtime}.

Lemma parse_ss_event_normalized (cr : value) (row : Series) :
  parse_ss_event cr = Ok row -> normalized row.
Proof.
  intro H.
  destruct (parse_ss_event_ok_inv cr row H)
    as (a & o & inv & g & e & loc & street & sid & lonv & lon & latv & lat
        & d & off & _ & _ & _ & _ & _ & _ & _ & _ & _ & _ & _ & _ & _ & _
        & ->).
  split; [reflexivity|]. exists lon, lat. split; reflexivity.
Qed.

Lemma mapM_parse_normalized (crimes : list value) (parsed : list Series) :
  mapM parse_ss_event crimes = Ok parsed -> Forall normalized parsed.
Proof.
  apply mapM_all. exact parse_ss_event_normalized.
Qed.

Lemma parsing_invariant (response : value) (t : DataFrame) :
  parsing response = Ok t -> table_invariant t.
Proof.
  unfold parsing. intro H.
  bind_inv H. rewrite parsing_loop_mapM in H.
  destruct (mapM parse_ss_event v) as [parsed|] eqn:Hparsed;
    simpl in H; [|discriminate H].
  injection H as <-.
  apply DataFrame_of_invariant.
  now apply mapM_parse_normalized with (crimes := v).
Qed.

Lemma get_month_crime_invariant (month year : string) (t : DataFrame) :
  get_month_crime month year = Ok t -> table_invariant t.
Proof.
  unfold get_month_crime. intro H. bind_inv H.
  now apply parsing_invariant with (response := v).
Qed.

Lemma yearly_crimes_invariant (year : string) (annual : DataFrame) :
  yearly_crimes year = Ok annual -> table_invariant annual.
Proof.
  unfold yearly_crimes. intro H. bind_inv H.
  apply concat_invariant with (frames := v); [|exact H].
  apply mapM_all with (f := fun month => get_month_crime month year)
                      (l := months); [|exact E].
  intros m t Hm.
  now apply get_month_crime_invariant with (month := m) (year := year).
Qed.

End Tables.

(** ** The geo-tagger *)

Section Geotagger.

Context {rt : Runtime}.

Lemma normalized_longitude (s : Series) :
  normalized s ->
  as_float64 (cell "longitude" s) = Ok (float_cell "longitude" s) /\
  cell "longitude" s = VFloat (float_cell "longitude" s).
Proof.
  intros (_ & lon & lat & Hlon & _).
  unfold float_cell, cell. rewrite Hlon. split; reflexivity.
Qed.

Lemma normalized_latitude (s : Series) :
  normalized s ->
  as_float64 (cell "latitude" s) = Ok (float_cell "latitude" s) /\
  cell "latitude" s = VFloat (float_cell "latitude" s).
Proof.
  intros (_ & lon & lat & _ & Hlat).
  unfold float_cell, cell. rewrite Hlat. split; reflexivity.
Qed.

Lemma float_column (col : string) (rs : list (Z * Series)) :
  Forall (fun s => as_float64 (cell col s) = Ok (float_cell col s))
    (map snd rs) ->
  mapM as_float64 (map (fun r => cell col (snd r)) rs) =
  Ok (map (fun r => float_cell col (snd r)) rs).
Proof.
  induction rs as [|r rs IH]; simpl; intro H; [reflexivity|].
  inversion H as [|? ? Hr Hrs]; subst.
  rewrite Hr; simpl. rewrite (IH Hrs). reflexivity.
Qed.

Lemma set_geometry_rows (rs : list (Z * Series)) :
  Forall normalized (map snd rs) ->
  set_column "geometry"
    (map VGeom
       (map (fun p => Point (fst p) (snd p))
          (combine (map (fun r => float_cell "longitude" (snd r)) rs)
                   (map (fun r => float_cell "latitude" (snd r)) rs))))
    rs
  = map tag_row rs.
Proof.
  induction rs as [|[i s] rs IH]; simpl; intro H; [reflexivity|].
  inversion H as [|? ? Hs Hrs]; subst.
  rewrite (IH Hrs). unfold tag_row at 2; simpl.
  rewrite assign_fresh; [reflexivity|].
  apply lookup_not_mem. rewrite (normalized_labels s Hs). reflexivity.
Qed.

(** Geo-tagging a table that has rows. *)
Lemma crimes_geodf_rows (yearly : DataFrame) :
  table_invariant yearly ->
  rows yearly <> [] ->
  exists gdf,
    crimes_geodf yearly = Ok gdf /\
    crs gdf = "EPSG:27700" /\
    columns (frame gdf) = (ss_labels ++ ["geometry"])%list /\
    rows (frame gdf) = map tag_row (rows yearly).
Proof.
  intros [Hrows Hcols] Hne.
  assert (Hc : columns yearly = ss_labels).
  { rewrite Hcols. destruct (rows yearly); [congruence | reflexivity]. }
  unfold crimes_geodf, df_getitem. rewrite Hc. simpl.
  unfold points_from_xy.
  rewrite (float_column "longitude"), (float_column "latitude").
  2:{ eapply Forall_impl; [|exact Hrows].
      intros s Hs. now apply normalized_latitude. }
  2:{ eapply Forall_impl; [|exact Hrows].
      intros s Hs. now apply normalized_longitude. }
  simpl. rewrite !length_map, Nat.eqb_refl.
  unfold GeoDataFrame_of, len. cbn [bind].
  rewrite length_map, length_combine, !length_map, Nat.min_id, Nat.eqb_refl.
  eexists. split; [reflexivity|]. cbn [crs frame columns rows].
  split; [reflexivity|]. split.
  - rewrite Hc. reflexivity.
  - now apply set_geometry_rows.
Qed.

(** C9, amended: for every annual table that has at least one row,
    the geo-tagger yields a spatial table tagged "EPSG:27700" (and not
    "EPSG:4326"), with the same rows in the same order under the same
    labels, each row extended by the point whose x is that row's
    longitude and whose y is that row's latitude. *)
Theorem crimes_geodf_tags_27700 (year : string) (yearly : DataFrame) :
  yearly_crimes year = Ok yearly ->
  rows yearly <> [] ->
  exists gdf,
    crimes_geodf yearly = Ok gdf /\
    (year = "2020" -> crimes_geodf_20 = Ok gdf) /\
    crs gdf = "EPSG:27700" /\
    crs gdf <> "EPSG:4326" /\
    Forall2
      (fun r r' =>
         exists lon lat,
           lookup "longitude" (snd r) = Some (VFloat lon) /\
           lookup "latitude" (snd r) = Some (VFloat lat) /\
           r' = (fst r,
                 (snd r ++ [("geometry", VGeom (Point lon lat))])%list))
      (rows yearly) (rows (frame gdf)).
Proof.
  intros Hyear Hne.
  pose proof (yearly_crimes_invariant year yearly Hyear) as Hinv.
  destruct (crimes_geodf_rows yearly Hinv Hne)
    as (gdf & Hgdf & Hcrs & _ & Hrows).
  exists gdf. split; [exact Hgdf|].
  split.
  { intros ->. unfold crimes_geodf_20, yearly_crimes_20.
    rewrite Hyear. exact Hgdf. }
  split; [exact Hcrs|].
  split; [rewrite Hcrs; discriminate|].
  rewrite Hrows. destruct Hinv as [Hnorm _].
  clear Hrows Hgdf Hne Hyear.
  induction (rows yearly) as [|r rs IH]; simpl; constructor.
  - inversion Hnorm as [|? ? (_ & lon & lat & Hlon & Hlat) _]; subst.
    exists lon, lat. split; [exact Hlon|]. split; [exact Hlat|].
    unfold tag_row, float_cell, cell. rewrite Hlon, Hlat. reflexivity.
  - apply IH. now inversion Hnorm.
Qed.

End Geotagger.

(** On the three-row annual table of the sample network. *)
Lemma crimes_geodf_tags_27700_witness :
  exists yearly,
    yearly_crimes (rt := spring_runtime) "2020" = Ok yearly /\
    rows yearly <> [] /\
    exists gdf,
      crimes_geodf (rt := spring_runtime) yearly = Ok gdf /\
      ("2020" = "2020" -> crimes_geodf_20 (rt := spring_runtime) = Ok gdf) /\
      crs gdf = "EPSG:27700" /\
      crs gdf <> "EPSG:4326" /\
      Forall2
        (fun r r' =>
           exists lon lat,
             lookup "longitude" (snd r) = Some (VFloat lon) /\
             lookup "latitude" (snd r) = Some (VFloat lat) /\
             r' = (fst r,
                   (snd r ++ [("geometry", VGeom (Point lon lat))])%list))
        (rows yearly) (rows (frame gdf)).
Proof.
  eexists.
  assert (H : yearly_crimes (rt := spring_runtime) "2020" =
              Ok (match yearly_crimes (rt := spring_runtime) "2020" with
                  | Ok t => t
                  | Raise _ => empty_frame
                  end)) by (vm_compute; reflexivity).
  split; [exact H|].
  assert (Hne : rows (match yearly_crimes (rt := spring_runtime) "2020" with
                      | Ok t => t
                      | Raise _ => empty_frame
                      end) <> []) by (vm_compute; discriminate).
  split; [exact Hne|].
  exact (crimes_geodf_tags_27700 (rt := spring_runtime) "2020" _ H Hne).
Defined.

(** C9 as stated fails on the empty annual table: twelve empty months
    concatenate to the frame without columns, reading its longitude
    column raises, and no spatial table and no tag exist. *)
Lemma empty_annual_table_is_not_tagged :
  yearly_crimes_20 (rt := quiet_runtime) = Ok empty_frame /\
  crimes_geodf (rt := quiet_runtime) empty_frame =
    Raise (KeyError "longitude") /\
  crimes_geodf_20 (rt := quiet_runtime) = Raise (KeyError "longitude").
Proof. repeat split; vm_compute; reflexivity. Qed.

(** The spatial table of the sample network: x is the longitude, y
    the latitude. *)
Example crimes_geodf_20_spring :
  (gdf <- crimes_geodf_20 (rt := spring_runtime) ;;
   Ok (crs gdf, map (fun r => cell "geometry" (snd r)) (rows (frame gdf)))) =
  Ok ("EPSG:27700",
      [ VGeom (Point (-2.961643)%float 53.420561%float);
        VGeom (Point (-2.982918)%float 53.404856%float);
        VGeom (Point (-2.961643)%float 53.420561%float) ]).
Proof. vm_compute. reflexivity. Qed.

(** ** Substring filters *)

Lemma prefix_spec (p s : string) :
  String.prefix p s = true <-> exists post, s = p ++ post.
Proof.
  revert s; induction p as [|c p IH]; intro s.
  - destruct s; simpl; (split; [intros _; eexists; reflexivity | reflexivity]).
  - destruct s as [|c' s]; simpl.
    + split; [discriminate | intros [post H]; discriminate H].
    + destruct (ascii_dec c c') as [->|Hne].
      * rewrite IH. split; intros [post H]; exists post.
        -- now rewrite H.
        -- now injection H.
      * split; [discriminate|]. intros [post H]. injection H as H1 H2.
        congruence.
Qed.

(** [contains needle haystack] holds exactly when the needle occurs
    somewhere inside the haystack. *)
Lemma contains_spec (needle haystack : string) :
  contains needle haystack = true <->
  exists pre post, haystack = pre ++ needle ++ post.
Proof.
  induction haystack as [|c h IH]; cbn [contains].
  - rewrite orb_false_r, prefix_spec. split.
    + intros [post H]. exists "", post. exact H.
    + intros (pre & post & H). destruct pre; simpl in H; [|discriminate H].
      now exists post.
  - rewrite orb_true_iff, prefix_spec, IH. split.
    + intros [[post H] | (pre & post & H)].
      * exists "", post. exact H.
      * exists (String c pre), post. simpl. now rewrite H.
    + intros (pre & post & H). destruct pre as [|c' pre]; simpl in H.
      * left. now exists post.
      * right. injection H as _ H. now exists pre, post.
Qed.

Lemma boolean_mask_map {A : Type} (p : A -> bool) (l : list A) :
  boolean_mask (map p l) l = filter p l.
Proof.
  induction l as [|a l IH]; simpl; [reflexivity|].
  rewrite IH. reflexivity.
Qed.

Lemma boolean_mask_length {A : Type} (mask : list bool) (l : list A) :
  (List.length (boolean_mask mask l) <= List.length l)%nat.
Proof.
  revert l; induction mask as [|b mask IH]; intros [|a l]; simpl; try lia.
  specialize (IH l). destruct b; simpl; lia.
Qed.

Lemma filter_idempotent {A : Type} (p : A -> bool) (l : list A) :
  filter p (filter p l) = filter p l.
Proof.
  induction l as [|a l IH]; simpl; [reflexivity|].
  destruct (p a) eqn:Hp; simpl; [rewrite Hp, IH|]; auto.
Qed.

Lemma filter_filter {A : Type} (p q : A -> bool) (l : list A) :
  filter q (filter p l) = filter (fun a => p a && q a) l.
Proof.
  induction l as [|a l IH]; simpl; [reflexivity|].
  destruct (p a); simpl; [destruct (q a)|]; now rewrite IH.
Qed.

Lemma filter_length_rel {A B : Type} (p : A -> bool) (q : B -> bool)
  (l : list A) (l' : list B) :
  Forall2 (fun a b => p a = q b) l l' ->
  List.length (filter p l) = List.length (filter q l').
Proof.
  induction 1 as [|a b l l' Hab _ IH]; simpl; [reflexivity|].
  rewrite Hab. destruct (q b); simpl; now rewrite IH.
Qed.

(** *** The [.str] accessor *)

Lemma existsb_forallb_excl {A : Type} (p q : A -> bool) (l : list A) :
  (forall a, p a = true -> q a = false) ->
  existsb p l = true -> forallb q l = false.
Proof.
  intros Hpq. induction l as [|a l IH]; simpl; [discriminate|].
  destruct (p a) eqn:Hp; simpl.
  - intros _. now rewrite (Hpq a Hp).
  - intro H. rewrite (IH H). apply andb_false_r.
Qed.

(** A uniform list of strings infers as string, or as empty. *)
Lemma infer_values_strings (values : list value) :
  forallb is_str values = true ->
  mem (infer_values values) allowed_types = true.
Proof.
  intro H. unfold infer_values. destruct values as [|v vs]; [reflexivity|].
  destruct v; try discriminate H. rewrite H. reflexivity.
Qed.

(** Values with a string among them never infer as boolean or
    numeric. *)
Lemma infer_values_with_string (values : list value) :
  existsb is_str values = true ->
  mem (infer_values values) allowed_types = true.
Proof.
  intro H.
  assert (Hint : forallb is_int values = false)
    by (apply (existsb_forallb_excl is_str); [now intros [] | exact H]).
  assert (Hnum : forallb is_number values = false)
    by (apply (existsb_forallb_excl is_str); [now intros [] | exact H]).
  assert (Hflt : forallb is_float values = false)
    by (apply (existsb_forallb_excl is_str); [now intros [] | exact H]).
  assert (Hbool : forallb is_bool values = false)
    by (apply (existsb_forallb_excl is_str); [now intros [] | exact H]).
  unfold infer_values. destruct values as [|v vs]; [discriminate H|].
  destruct v; rewrite ?Hint, ?Hnum, ?Hflt, ?Hbool;
    try reflexivity;
    destruct (existsb is_int _); try reflexivity;
    destruct (forallb is_str _); reflexivity.
Qed.

Lemma str_contains_text (pat : string) (column : list value) :
  forallb is_text column = true ->
  str_contains pat column = Ok (contains_mask pat column).
Proof.
  intro H. unfold str_contains, infer_dtype.
  rewrite infer_values_strings; [reflexivity|].
  induction column as [|v column IH]; [reflexivity|].
  simpl in H. apply andb_prop in H as [Hv H].
  destruct v; try discriminate Hv; simpl; auto.
Qed.

Lemma str_contains_with_string (pat : string) (column : list value) :
  existsb is_str column = true ->
  str_contains pat column = Ok (contains_mask pat column).
Proof.
  intro H. unfold str_contains, infer_dtype.
  rewrite infer_values_with_string; [reflexivity|].
  induction column as [|v column IH]; [discriminate H|].
  simpl in H. destruct v; simpl in *; auto.
  destruct (PrimFloat.is_nan f); simpl; auto.
Qed.

(** What [str.contains] returns when it returns. *)
Lemma str_contains_inv (pat : string) (column : list value) (mask : list bool) :
  str_contains pat column = Ok mask -> mask = contains_mask pat column.
Proof.
  unfold str_contains.
  destruct (mem (infer_dtype column) allowed_types); [|discriminate].
  now intros [= <-].
Qed.

Lemma str_contains_raises (pat : string) (column : list value) :
  str_contains pat column = Ok (contains_mask pat column) \/
  str_contains pat column = Raise AttributeError.
Proof.
  unfold str_contains.
  destruct (mem (infer_dtype column) allowed_types); auto.
Qed.

(** Whether the accessor works does not depend on the pattern. *)
Lemma str_contains_any_pattern (pat pat' : string) (column : list value)
  (mask : list bool) :
  str_contains pat column = Ok mask ->
  str_contains pat' column = Ok (contains_mask pat' column).
Proof.
  unfold str_contains.
  destruct (mem (infer_dtype column) allowed_types); [reflexivity|discriminate].
Qed.

Lemma contains_mask_cells (col pat : string) (rs : list (Z * Series)) :
  contains_mask pat (column_of col rs) = map (cell_contains col pat) rs.
Proof. unfold contains_mask, column_of. now rewrite map_map. Qed.

(** The cells kept by a filter on their own column are strings. *)
Lemma filtered_column_strings (col pat : string) (rs : list (Z * Series)) :
  forallb is_text (column_of col (filter (cell_contains col pat) rs)) = true.
Proof.
  induction rs as [|r rs IH]; simpl; [reflexivity|].
  destruct (cell_contains col pat r) eqn:Hr; [|exact IH].
  simpl. rewrite IH. unfold cell_contains in Hr.
  destruct (cell col (snd r)); try discriminate Hr. reflexivity.
Qed.

Lemma text_column_filter (col : string) (p : Z * Series -> bool)
  (rs : list (Z * Series)) :
  forallb is_text (column_of col rs) = true ->
  forallb is_text (column_of col (filter p rs)) = true.
Proof.
  induction rs as [|r rs IH]; simpl; [reflexivity|].
  intro H. apply andb_prop in H as [Hr H].
  destruct (p r); simpl; [rewrite Hr|]; auto.
Qed.

(** A filter that keeps a row has found a string in its column. *)
Lemma kept_row_string (col pat : string) (rs : list (Z * Series)) :
  filter (cell_contains col pat) rs <> [] ->
  existsb is_str (column_of col rs) = true.
Proof.
  induction rs as [|r rs IH]; simpl; [congruence|].
  destruct (cell_contains col pat r) eqn:Hr.
  - intros _. unfold cell_contains in Hr.
    destruct (cell col (snd r)); try discriminate Hr. reflexivity.
  - intro H. rewrite (IH H). apply orb_true_r.
Qed.

(** *** The selection cell *)

(** The selection when the column is there and [.str] accepts it. *)
Lemma where_contains_filter (gdf : GeoDataFrame) (col pat : string) :
  mem col (columns (frame gdf)) = true ->
  str_contains pat (column_of col (rows (frame gdf))) =
    Ok (contains_mask pat (column_of col (rows (frame gdf)))) ->
  where_contains gdf col pat =
  Ok {| frame :=
          {| columns := columns (frame gdf);
             rows := filter (cell_contains col pat) (rows (frame gdf)) |};
        crs := crs gdf |}.
Proof.
  intros Hmem Hstr. unfold where_contains, df_getitem. rewrite Hmem.
  cbn [bind]. fold (column_of col (rows (frame gdf))). rewrite Hstr.
  cbn [bind]. now rewrite contains_mask_cells, boolean_mask_map.
Qed.

(** What the selection cell returns when it returns. *)
Lemma where_contains_inv (gdf sub : GeoDataFrame) (col pat : string) :
  where_contains gdf col pat = Ok sub ->
  mem col (columns (frame gdf)) = true /\
  str_contains pat (column_of col (rows (frame gdf))) =
    Ok (contains_mask pat (column_of col (rows (frame gdf)))) /\
  sub = {| frame :=
             {| columns := columns (frame gdf);
                rows := filter (cell_contains col pat) (rows (frame gdf)) |};
           crs := crs gdf |}.
Proof.
  intro H.
  destruct (mem col (columns (frame gdf))) eqn:Hmem.
  2:{ unfold where_contains, df_getitem in H. rewrite Hmem in H.
      discriminate H. }
  destruct (str_contains_raises pat (column_of col (rows (frame gdf))))
    as [Hstr|Hstr].
  - rewrite (where_contains_filter gdf col pat Hmem Hstr) in H.
    injection H as <-. auto.
  - unfold where_contains, df_getitem in H. rewrite Hmem in H.
    cbn [bind] in H. fold (column_of col (rows (frame gdf))) in H.
    rewrite Hstr in H. discriminate H.
Qed.

(** Every subset the notebook takes is a boolean-mask selection. *)
Lemma where_contains_is_mask (gdf sub : GeoDataFrame) (col pat : string) :
  where_contains gdf col pat = Ok sub ->
  exists mask, rows (frame sub) = boolean_mask mask (rows (frame gdf)).
Proof.
  intro H. apply where_contains_inv in H as (_ & _ & ->).
  exists (map (cell_contains col pat) (rows (frame gdf))).
  cbn [frame rows]. now rewrite boolean_mask_map.
Qed.

(** C6: whenever the "Black" filter yields a table, be it from the
    spatial table or from any other, filtering that table again yields
    the very same table, and the rows kept are, in their order and with
    their multiplicity, exactly the rows whose self_defined_ethnicity is
    a string in which "Black" occurs somewhere.  (The filter yields no
    table when the column is absent or holds nothing but booleans or
    nothing but numbers: the cell raises.) *)
Theorem black_filter_idempotent (crimes b : GeoDataFrame) :
  black crimes = Ok b ->
  black b = Ok b /\
  rows (frame b) =
    filter (cell_contains "self_defined_ethnicity" "Black")
      (rows (frame crimes)) /\
  (forall r,
     cell_contains "self_defined_ethnicity" "Black" r = true <->
     exists pre post,
       cell "self_defined_ethnicity" (snd r) =
       VStr (pre ++ "Black" ++ post)) /\
  columns (frame b) = columns (frame crimes) /\
  crs b = crs crimes.
Proof.
  unfold black. intro H.
  apply where_contains_inv in H as (Hmem & _ & ->).
  split.
  { rewrite where_contains_filter.
    - cbn [frame rows columns crs]. now rewrite filter_idempotent.
    - exact Hmem.
    - apply str_contains_text. cbn [frame rows].
      apply filtered_column_strings. }
  split; [reflexivity|].
  split; [|split; reflexivity].
  intro r. unfold cell_contains.
  destruct (cell "self_defined_ethnicity" (snd r)) as [| | | |s| | |];
    try (split; [discriminate | intros (pre & post & H); discriminate H]).
  rewrite contains_spec. split; intros (pre & post & H); exists pre, post.
  - now rewrite H.
  - now injection H.
Qed.

(** On a three-row table with a Black label, a null and another label. *)
Lemma black_filter_idempotent_witness :
  black tiny_table = Ok tiny_subset /\
  black tiny_subset = Ok tiny_subset /\
  rows (frame tiny_subset) =
    filter (cell_contains "self_defined_ethnicity" "Black")
      (rows (frame tiny_table)) /\
  (forall r,
     cell_contains "self_defined_ethnicity" "Black" r = true <->
     exists pre post,
       cell "self_defined_ethnicity" (snd r) =
       VStr (pre ++ "Black" ++ post)) /\
  columns (frame tiny_subset) = columns (frame tiny_table) /\
  crs tiny_subset = crs tiny_table.
Proof.
  split; [reflexivity|].
  apply (black_filter_idempotent tiny_table tiny_subset). reflexivity.
Defined.

(** Containment, not equality: the label is kept although it is not
    the word itself, and a null is dropped. *)
Example black_tiny_table : black tiny_table = Ok tiny_subset.
Proof. reflexivity. Qed.

(** ** Ratios *)

Lemma truediv_bounds (a b : nat) :
  (a <= b)%nat -> b <> 0%nat ->
  exists q, truediv a b = Ok q /\ (0 <= q)%Q /\ (q <= 1)%Q /\
            (0 <= q * 100)%Q /\ (q * 100 <= 100)%Q.
Proof.
  intros Hab Hb. destruct b as [|b]; [congruence|].
  eexists. split; [reflexivity|].
  unfold Qle, Qmult; cbn [Qnum Qden].
  rewrite ?Pos2Z.inj_mul.
  assert (Hp : Z.pos (Pos.of_nat (S b)) = Z.of_nat (S b)).
  { rewrite <- positive_nat_Z, Nat2Pos.id; [reflexivity | discriminate]. }
  rewrite Hp. repeat split; nia.
Qed.

(** C7: for a table [T] and any boolean-mask selection [S] of it, the
    ratio len(S)/len(T) and the percentage (len(S)/len(T))*100 exist
    and lie in [0, 1] and [0, 100] when [T] has rows, and both
    computations raise ZeroDivisionError when [T] has none. *)
Theorem percentage_bounds (T S : GeoDataFrame) (mask : list bool) :
  rows (frame S) = boolean_mask mask (rows (frame T)) ->
  (glen T <> 0%nat ->
   exists q,
     bk_percentage S T = Ok q /\
     black_youth_percentage S T = Ok (q * 100)%Q /\
     (0 <= q)%Q /\ (q <= 1)%Q /\
     (0 <= q * 100)%Q /\ (q * 100 <= 100)%Q) /\
  (glen T = 0%nat ->
   bk_percentage S T = Raise ZeroDivisionError /\
   black_youth_percentage S T = Raise ZeroDivisionError).
Proof.
  intro Hsel.
  assert (Hle : (glen S <= glen T)%nat).
  { unfold glen, len. rewrite Hsel. apply boolean_mask_length. }
  split.
  - intro Hne.
    destruct (truediv_bounds (glen S) (glen T) Hle Hne)
      as (q & Hq & H0 & H1 & H2 & H3).
    exists q. unfold bk_percentage, black_youth_percentage.
    rewrite Hq. simpl. repeat split; assumption.
  - intro Hz. unfold bk_percentage, black_youth_percentage.
    rewrite Hz. split; reflexivity.
Qed.

(** On a three-row table and its one-row selection. *)
Lemma percentage_bounds_witness :
  rows (frame tiny_subset) =
    boolean_mask [true; false; false] (rows (frame tiny_table)) /\
  (glen tiny_table <> 0%nat ->
   exists q,
     bk_percentage tiny_subset tiny_table = Ok q /\
     black_youth_percentage tiny_subset tiny_table = Ok (q * 100)%Q /\
     (0 <= q)%Q /\ (q <= 1)%Q /\
     (0 <= q * 100)%Q /\ (q * 100 <= 100)%Q) /\
  (glen tiny_table = 0%nat ->
   bk_percentage tiny_subset tiny_table = Raise ZeroDivisionError /\
   black_youth_percentage tiny_subset tiny_table = Raise ZeroDivisionError).
Proof.
  split; [reflexivity|].
  apply (percentage_bounds tiny_table tiny_subset [true; false; false]).
  reflexivity.
Defined.

(** One row out of three, and a ratio against a table without rows. *)
Example bk_percentage_tiny :
  bk_percentage tiny_subset tiny_table = Ok (1 # 3)%Q /\
  black_youth_percentage tiny_subset tiny_table = Ok ((1 # 3) * 100)%Q /\
  bk_percentage tiny_subset
    {| frame := empty_frame; crs := "EPSG:27700" |} =
    Raise ZeroDivisionError.
Proof. repeat split. Qed.

(** ** One month through the whole pipeline *)

Lemma mapM_pure {A B : Type} (f : A -> result B) (g : A -> B) (l : list A) :
  (forall a, In a l -> f a = Ok (g a)) -> mapM f l = Ok (map g l).
Proof.
  induction l as [|a l IH]; simpl; intro H; [reflexivity|].
  rewrite (H a) by now left. simpl.
  rewrite IH by (intros x Hx; apply H; now right). reflexivity.
Qed.

Section Pipeline.

Context {rt : Runtime}.

Lemma tagged_contains (cr : value) (row : Series) (i : Z) (pat : string) :
  parse_ss_event cr = Ok row ->
  cell_contains "self_defined_ethnicity" pat (tag_row (i, row)) =
    raw_contains "self_defined_ethnicity" pat cr /\
  cell_contains "age_range" pat (tag_row (i, row)) =
    raw_contains "age_range" pat cr.
Proof.
  intro H.
  destruct (parse_ss_event_ok_inv cr row H)
    as (a & o & inv & g & e & loc & street & sid & lonv & lon & latv & lat
        & d & off & Ha & _ & _ & _ & He & _ & _ & _ & _ & _ & _ & _ & _ & _
        & ->).
  unfold cell_contains, raw_contains. rewrite Ha, He. split; reflexivity.
Qed.

Lemma tagged_rows_rel (P : value -> Z * Series -> Prop)
  (payload : list value) (parsed : list Series) :
  (forall cr row i, parse_ss_event cr = Ok row -> P cr (tag_row (i, row))) ->
  Forall2 (fun cr row => parse_ss_event cr = Ok row) payload parsed ->
  forall start, Forall2 P payload (map tag_row (enumerate start parsed)).
Proof.
  intros HP H. induction H as [|cr row payload parsed Hrow _ IH];
    intro start; simpl; constructor; auto.
Qed.

(** The month, the spatial table and the two subsets for a payload of
    accepted records, with the sizes read off the payload. *)
Lemma month_pipeline (month year : string) (payload : list value) :
  fetch_json (month_url month year) = Ok (VList payload) ->
  Forall (fun cr => is_ok (parse_ss_event cr) = true) payload ->
  filter (fun cr =>
            raw_contains "self_defined_ethnicity" "Black" cr &&
            raw_contains "age_range" "18-24" cr) payload <> [] ->
  exists month_db crimes b youth,
    get_month_crime month year = Ok month_db /\
    columns month_db = ss_labels /\
    crimes_geodf month_db = Ok crimes /\
    black crimes = Ok b /\
    black_youth b = Ok youth /\
    glen crimes = List.length payload /\
    glen b =
      List.length
        (filter (raw_contains "self_defined_ethnicity" "Black") payload) /\
    glen youth =
      List.length
        (filter (fun cr =>
                   raw_contains "self_defined_ethnicity" "Black" cr &&
                   raw_contains "age_range" "18-24" cr) payload).
Proof.
  intros Hfetch Hvalid Hsome.
  assert (Hne : payload <> []) by (intros ->; now apply Hsome).
  destruct (mapM_total _ _ Hvalid) as [parsed Hparsed].
  pose proof (mapM_parse_normalized _ _ Hparsed) as Hnorm.
  pose proof (mapM_length _ _ _ Hparsed) as Hlen.
  pose proof (DataFrame_of_invariant parsed Hnorm) as Hinv.
  assert (Hrows : rows (DataFrame_of parsed) <> []).
  { simpl. destruct parsed; [|discriminate].
    destruct payload; [congruence | discriminate Hlen]. }
  destruct (crimes_geodf_rows _ Hinv Hrows)
    as (crimes & Hcrimes & _ & Hcols & Hcrows).
  assert (Hmem1 : mem "self_defined_ethnicity" (columns (frame crimes)) = true)
    by (rewrite Hcols; reflexivity).
  assert (Hmem2 : mem "age_range" (columns (frame crimes)) = true)
    by (rewrite Hcols; reflexivity).
  pose proof (proj1 (mapM_Forall2 _ _ _) Hparsed) as Hrel.
  assert (Hnb :
    List.length
      (filter (raw_contains "self_defined_ethnicity" "Black") payload) =
    List.length
      (filter (cell_contains "self_defined_ethnicity" "Black")
         (rows (frame crimes)))).
  { rewrite Hcrows. cbn [DataFrame_of rows]. apply filter_length_rel.
    apply tagged_rows_rel; [|exact Hrel].
    intros cr row i Hrow. symmetry.
    now apply (tagged_contains cr row i "Black"). }
  assert (Hny :
    List.length
      (filter (fun cr =>
                 raw_contains "self_defined_ethnicity" "Black" cr &&
                 raw_contains "age_range" "18-24" cr) payload) =
    List.length
      (filter (cell_contains "age_range" "18-24")
         (filter (cell_contains "self_defined_ethnicity" "Black")
            (rows (frame crimes))))).
  { rewrite Hcrows. cbn [DataFrame_of rows]. rewrite filter_filter.
    apply filter_length_rel.
    apply tagged_rows_rel; [|exact Hrel].
    intros cr row i Hrow.
    destruct (tagged_contains cr row i "Black" Hrow) as [-> _].
    destruct (tagged_contains cr row i "18-24" Hrow) as [_ ->].
    reflexivity. }
  assert (Hyouth :
    filter (cell_contains "age_range" "18-24")
      (filter (cell_contains "self_defined_ethnicity" "Black")
         (rows (frame crimes))) <> []).
  { intro E. rewrite E in Hny.
    destruct (filter _ payload); [congruence | discriminate Hny]. }
  assert (Hblack :
    filter (cell_contains "self_defined_ethnicity" "Black")
      (rows (frame crimes)) <> []).
  { intro E. rewrite E in Hyouth. now apply Hyouth. }
  exists (DataFrame_of parsed), crimes.
  exists {| frame :=
              {| columns := columns (frame crimes);
                 rows := filter (cell_contains "self_defined_ethnicity" "Black")
                           (rows (frame crimes)) |};
            crs := crs crimes |}.
  exists {| frame :=
              {| columns := columns (frame crimes);
                 rows := filter (cell_contains "age_range" "18-24")
                           (filter
                              (cell_contains "self_defined_ethnicity" "Black")
                              (rows (frame crimes))) |};
            crs := crs crimes |}.
  split.
  { unfold get_month_crime. rewrite Hfetch. cbn [bind].
    rewrite parsing_list, Hparsed. reflexivity. }
  split.
  { destruct Hinv as [_ Hc]. rewrite Hc.
    destruct (rows (DataFrame_of parsed)); [congruence | reflexivity]. }
  split; [exact Hcrimes|].
  split.
  { unfold black. apply where_contains_filter; [exact Hmem1|].
    apply str_contains_with_string.
    exact (kept_row_string _ "Black" _ Hblack). }
  split.
  { unfold black_youth. rewrite where_contains_filter; [reflexivity| |].
    - exact Hmem2.
    - cbn [frame rows]. apply str_contains_with_string.
      exact (kept_row_string _ "18-24" _ Hyouth). }
  unfold glen, len. cbn [frame rows].
  split; [|split; [now rewrite Hnb | now rewrite Hny]].
  rewrite Hcrows. cbn [DataFrame_of rows].
  now rewrite length_map, enumerate_length.
Qed.

(** When one month holds records and the eleven others hold none, the
    annual table is that month's table. *)
Lemma single_month_year (month year : string) (month_db : DataFrame) :
  In month months ->
  get_month_crime month year = Ok month_db ->
  columns month_db = ss_labels ->
  (forall other, In other months -> other <> month ->
     fetch_json (month_url other year) = Ok (VList [])) ->
  yearly_crimes year = Ok month_db.
Proof.
  intros Hin Hmonth Hcols Hothers.
  unfold yearly_crimes.
  rewrite (mapM_pure _
             (fun m => if String.eqb m month then month_db else empty_frame)).
  2:{ intros m Hm. destruct (String.eqb_spec m month) as [->|Hne];
        [exact Hmonth|].
      unfold get_month_crime. rewrite (Hothers m Hm Hne). reflexivity. }
  destruct month_db as [cols rs]. cbn [columns] in Hcols. subst cols.
  clear Hmonth Hothers. unfold months in *. simpl in Hin.
  repeat (destruct Hin as [<-|Hin];
          [ cbn; rewrite ?app_nil_r; reflexivity | ]).
  contradiction.
Qed.

(** C5: a month whose payload holds 100 accepted records, exactly 10
    of them with "Black" inside self_defined_ethnicity and exactly 5 of
    those with "18-24" inside age_range, gives a spatial table of 100
    rows, a Black subset of 10 and a Black-youth subset of 5; when the
    other eleven months are empty this is the annual pipeline's spatial
    table as well. *)
Theorem fake_month_scenario (month year : string) (payload : list value) :
  fetch_json (month_url month year) = Ok (VList payload) ->
  Forall (fun cr => is_ok (parse_ss_event cr) = true) payload ->
  List.length payload = 100%nat ->
  List.length
    (filter (raw_contains "self_defined_ethnicity" "Black") payload) = 10%nat ->
  List.length
    (filter (fun cr =>
               raw_contains "self_defined_ethnicity" "Black" cr &&
               raw_contains "age_range" "18-24" cr) payload) = 5%nat ->
  exists month_db crimes b youth,
    get_month_crime month year = Ok month_db /\
    crimes_geodf month_db = Ok crimes /\
    black crimes = Ok b /\
    black_youth b = Ok youth /\
    glen crimes = 100%nat /\
    glen b = 10%nat /\
    glen youth = 5%nat /\
    (In month months ->
     (forall other, In other months -> other <> month ->
        fetch_json (month_url other year) = Ok (VList [])) ->
     yearly_crimes year = Ok month_db /\
     (year = "2020" -> crimes_geodf_20 = Ok crimes)).
Proof.
  intros Hfetch Hvalid Hlen Hblack Hyouth.
  assert (Hsome :
    filter (fun cr =>
              raw_contains "self_defined_ethnicity" "Black" cr &&
              raw_contains "age_range" "18-24" cr) payload <> [])
    by (intro E; rewrite E in Hyouth; discriminate Hyouth).
  destruct (month_pipeline month year payload Hfetch Hvalid Hsome)
    as (month_db & crimes & b & youth & Hmonth & Hcols & Hcrimes & Hb & Hy
        & Hn & Hnb & Hny).
  exists month_db, crimes, b, youth.
  repeat (split; [assumption || congruence|]).
  intros Hin Hothers.
  pose proof (single_month_year month year month_db Hin Hmonth Hcols Hothers)
    as Hyearly.
  split; [exact Hyearly|].
  intros ->. unfold crimes_geodf_20, yearly_crimes_20.
  rewrite Hyearly. exact Hcrimes.
Qed.

End Pipeline.

(** Every record of the fake payload is accepted. *)
Lemma fake_payload_accepted :
  Forall (fun cr => is_ok (parse_ss_event (rt := fake_runtime) cr) = true)
    fake_payload.
Proof.
  apply Forall_forall. apply forallb_forall. vm_compute. reflexivity.
Defined.

(** On the fake payload served for January 2020. *)
Lemma fake_month_scenario_witness :
  (fetch_json (Runtime := fake_runtime) (month_url "01" "2020") =
     Ok (VList fake_payload) /\
   Forall (fun cr => is_ok (parse_ss_event (rt := fake_runtime) cr) = true)
     fake_payload /\
   List.length fake_payload = 100%nat /\
   List.length
     (filter (raw_contains "self_defined_ethnicity" "Black") fake_payload) =
     10%nat /\
   List.length
     (filter (fun cr =>
                raw_contains "self_defined_ethnicity" "Black" cr &&
                raw_contains "age_range" "18-24" cr) fake_payload) = 5%nat) /\
  exists month_db crimes b youth,
    get_month_crime (rt := fake_runtime) "01" "2020" = Ok month_db /\
    crimes_geodf (rt := fake_runtime) month_db = Ok crimes /\
    black crimes = Ok b /\
    black_youth b = Ok youth /\
    glen crimes = 100%nat /\
    glen b = 10%nat /\
    glen youth = 5%nat /\
    (In "01" months ->
     (forall other, In other months -> other <> "01" ->
        fetch_json (Runtime := fake_runtime) (month_url other "2020") =
          Ok (VList [])) ->
     yearly_crimes (rt := fake_runtime) "2020" = Ok month_db /\
     ("2020" = "2020" -> crimes_geodf_20 (rt := fake_runtime) = Ok crimes)).
Proof.
  split.
  - split; [vm_compute; reflexivity|].
    split; [exact fake_payload_accepted|].
    split; [vm_compute; reflexivity|].
    split; vm_compute; reflexivity.
  - apply (fake_month_scenario (rt := fake_runtime) "01" "2020" fake_payload).
    + vm_compute; reflexivity.
    + exact fake_payload_accepted.
    + vm_compute; reflexivity.
    + vm_compute; reflexivity.
    + vm_compute; reflexivity.
Defined.

(** The sizes along the 2020 pipeline of the fake January. *)
Example fake_january_sizes :
  (crimes <- crimes_geodf_20 (rt := fake_runtime) ;;
   b <- black crimes ;;
   youth <- black_youth b ;;
   Ok (glen crimes, glen b, glen youth)) = Ok (100, 10, 5)%nat.
Proof. vm_compute. reflexivity. Qed.

(** The same payload served for each of the twelve months is counted
    twelve times. *)
Example repeating_sizes :
  (crimes <- crimes_geodf_20 (rt := repeating_runtime) ;;
   b <- black crimes ;;
   youth <- black_youth b ;;
   Ok (glen crimes, glen b, glen youth)) = Ok (1200, 120, 60)%nat.
Proof. vm_compute. reflexivity. Qed.

(** ** The isochrone cells *)

Lemma lookup_assign_same {A : Type} (k : string) (v : A) (s : list (string * A)) :
  lookup k (assign k v s) = Some v.
Proof.
  induction s as [|[k' v'] s IH]; simpl.
  - now rewrite String.eqb_refl.
  - destruct (String.eqb k k') eqn:E; simpl.
    + now rewrite String.eqb_refl.
    + now rewrite E.
Qed.

Lemma lookup_assign_other {A : Type} (k k1 : string) (v : A)
  (s : list (string * A)) :
  String.eqb k k1 = false -> lookup k (assign k1 v s) = lookup k s.
Proof.
  intro Hne. induction s as [|[k' v'] s IH]; simpl.
  - now rewrite Hne.
  - destruct (String.eqb k1 k') eqn:E; simpl.
    + apply String.eqb_eq in E. subst k'. now rewrite Hne.
    + destruct (String.eqb k k'); auto.
Qed.

Lemma update_lookup_none {A : Type} (k : string) (d init : list (string * A)) :
  lookup k d = None ->
  lookup k (fold_left (fun row kv => assign (fst kv) (snd kv) row) d init) =
  lookup k init.
Proof.
  revert init; induction d as [|[k1 v1] d IH]; intros init H; simpl;
    [reflexivity|].
  simpl in H. destruct (String.eqb k k1) eqn:E; [discriminate|].
  rewrite (IH _ H). now apply lookup_assign_other.
Qed.

Lemma update_lookup_some {A : Type} (k : string) (v : A)
  (d init : list (string * A)) :
  NoDup (labels d) ->
  lookup k d = Some v ->
  lookup k (fold_left (fun row kv => assign (fst kv) (snd kv) row) d init) =
  Some v.
Proof.
  revert init; induction d as [|[k1 v1] d IH]; intros init Hnd H; simpl;
    [discriminate|].
  simpl in H. inversion Hnd as [|? ? Hnotin Hnd']; subst.
  destruct (String.eqb k k1) eqn:E.
  - injection H as <-. apply String.eqb_eq in E. subst k1.
    rewrite update_lookup_none.
    + apply lookup_assign_same.
    + destruct (lookup k d) eqn:Hl; [|reflexivity].
      exfalso. apply Hnotin. clear -Hl.
      induction d as [|[k' v'] d IH]; simpl in *; [discriminate|].
      destruct (String.eqb_spec k k'); [now left | right; auto].
  - now apply IH.
Qed.

Section Isochrone.

Context {rt : Runtime}.

Lemma json_number_float (v : value) (f : float) :
  json_number v f -> py_float v = Ok f /\ is_coordinates_empty v = false.
Proof.
  intros [-> | (z & -> & Hz)]; split; auto.
Qed.

Lemma json_position_ok (o : value) (p : float * float) :
  json_position o p -> position o = Ok p /\ is_coordinates_empty o = false.
Proof.
  intros (a & b & -> & Ha & Hb).
  apply json_number_float in Ha as [Ha Ea], Hb as [Hb Eb].
  split.
  - unfold position. simpl. rewrite Ha, Hb. simpl. now destruct p.
  - simpl. now rewrite Ea.
Qed.

Lemma ring_positions (ring : list value) (pts : list (float * float)) :
  Forall2 json_position ring pts -> mapM position ring = Ok pts.
Proof.
  intro H. apply mapM_Forall2.
  eapply Forall2_impl; [|exact H].
  intros o p Hop. now apply json_position_ok.
Qed.

Lemma close_ring_closed (pts : list (float * float)) :
  closed pts = true -> close_ring pts = pts.
Proof.
  destruct pts as [|p pts]; [discriminate|].
  unfold closed, close_ring. now intros ->.
Qed.

Lemma LinearRing_closed (ring : list value) (pts : list (float * float)) :
  Forall2 json_position ring pts ->
  (4 <= List.length pts)%nat ->
  closed pts = true ->
  LinearRing (VList ring) = Ok pts.
Proof.
  intros Hring Hlen Hclosed.
  unfold LinearRing. simpl. rewrite (ring_positions ring pts Hring). simpl.
  destruct pts as [|p pts]; [discriminate|].
  destruct (Nat.ltb_spec (List.length (p :: pts)) 4) as [Hlt|_]; [lia|].
  now rewrite close_ring_closed.
Qed.

(** The frame built from one feature of an isochrone response. *)
Lemma from_features_isochrone (feature : value) (contour : Z)
  (pts : list (float * float)) (crs0 : string) :
  isochrone_feature feature contour pts ->
  exists row,
    from_features [feature] crs0 =
      Ok {| frame := {| columns := union [] (labels row);
                        rows := [(0, row)] |};
            crs := crs0 |} /\
    cell "geometry" row = VGeom (Polygon pts []) /\
    cell "contour" row = VInt contour.
Proof.
  intros (props & geom & ring & Hprops & Hnd & Hcontour & Hnogeom & Hgeom
          & Htype & Hcoords & Hring & Hlen & Hclosed).
  assert (Hne : ring <> []).
  { intros ->. inversion Hring; subst. simpl in Hlen. lia. }
  assert (Hshape : shape (VDict geom) = Ok (Polygon pts [])).
  { unfold shape. rewrite Htype, Hcoords. cbn [lower lower_ascii].
    simpl negb. cbv iota.
    destruct ring as [|o ring]; [congruence|].
    inversion Hring as [|? p ? pts' Hop Hrest]; subst.
    apply json_position_ok in Hop as [_ Hempty].
    cbn [is_coordinates_empty forallb]. rewrite Hempty. cbn [andb].
    rewrite (LinearRing_closed (o :: ring) (p :: pts') Hring Hlen Hclosed).
    reflexivity. }
  assert (Htruthy : truthy (VDict geom) = true).
  { destruct geom; [discriminate Htype | reflexivity]. }
  set (row := fold_left (fun row kv => assign (fst kv) (snd kv) row) props
                [("geometry", VGeom (Polygon pts []))]).
  assert (Hrow : feature_row feature = Ok row).
  { unfold feature_row. rewrite Hgeom. cbn [bind]. rewrite Htruthy, Hshape.
    cbn [bind]. rewrite Hprops. reflexivity. }
  assert (Hg : cell "geometry" row = VGeom (Polygon pts [])).
  { unfold cell, row. rewrite update_lookup_none by exact Hnogeom.
    reflexivity. }
  exists row. split; [|split; [exact Hg|]].
  - unfold from_features. cbn [mapM]. rewrite Hrow. cbn [bind].
    cbn [DataFrame_of map fold_left enumerate rows forallb snd].
    rewrite Hg. reflexivity.
  - unfold cell, row.
    now rewrite (update_lookup_some "contour" (VInt contour)).
Qed.

Lemma walk_split_two (walk f0 f1 : value) :
  walk.["features"] = Ok (VList [f0; f1]) -> walk_split walk = Ok (f0, f1).
Proof. intro H. unfold walk_split. rewrite H. reflexivity. Qed.

(** Both frames of a two-feature response. *)
Lemma walk_frames_isochrone (walk f0 f1 : value) (c0 c1 : Z)
  (pts0 pts1 : list (float * float)) :
  walk.["features"] = Ok (VList [f0; f1]) ->
  isochrone_feature f0 c0 pts0 ->
  isochrone_feature f1 c1 pts1 ->
  exists walk_5 walk_10 row_5 row_10,
    walk_frames walk = Ok (walk_5, walk_10) /\
    crs walk_5 = "EPSG:4326" /\ crs walk_10 = "EPSG:4326" /\
    rows (frame walk_5) = [(0, row_5)] /\
    rows (frame walk_10) = [(0, row_10)] /\
    cell "geometry" row_5 = VGeom (Polygon pts0 []) /\
    cell "geometry" row_10 = VGeom (Polygon pts1 []) /\
    cell "contour" row_5 = VInt c0 /\
    cell "contour" row_10 = VInt c1.
Proof.
  intros Hwalk H0 H1.
  destruct (from_features_isochrone f0 c0 pts0 "EPSG:4326" H0)
    as (row_5 & Hf0 & Hg0 & Hc0).
  destruct (from_features_isochrone f1 c1 pts1 "EPSG:4326" H1)
    as (row_10 & Hf1 & Hg1 & Hc1).
  do 2 eexists. exists row_5, row_10.
  split.
  { unfold walk_frames. rewrite (walk_split_two walk f0 f1 Hwalk).
    cbn [bind fst snd]. rewrite Hf0. cbn [bind]. rewrite Hf1. reflexivity. }
  cbn [crs frame rows]. repeat split; assumption.
Qed.

End Isochrone.

Lemma ring_value_positions (pts : list (float * float)) :
  Forall2 json_position
    (map (fun p => VList [VFloat (fst p); VFloat (snd p)]) pts) pts.
Proof.
  induction pts as [|p pts IH]; simpl; constructor; [|exact IH].
  exists (VFloat (fst p)), (VFloat (snd p)).
  split; [reflexivity|]. split; left; reflexivity.
Qed.

Lemma recorded_properties_nodup (colour : string) (contour : Z) :
  NoDup (labels (recorded_properties colour contour)).
Proof.
  simpl. repeat (constructor; [simpl; intuition discriminate|]). constructor.
Qed.

(** The features printed in the notebook have the shape assumed of an
    isochrone feature. *)
Lemma recorded_feature_isochrone (colour : string) (contour : Z)
  (pts : list (float * float)) :
  (4 <= List.length pts)%nat ->
  closed pts = true ->
  isochrone_feature (recorded_feature colour contour pts) contour pts.
Proof.
  intros Hlen Hclosed.
  exists (recorded_properties colour contour),
    [ ("coordinates", VList [ring_value pts]); ("type", VStr "Polygon") ],
    (map (fun p => VList [VFloat (fst p); VFloat (snd p)]) pts).
  split; [reflexivity|].
  split; [apply recorded_properties_nodup|].
  split; [reflexivity|]. split; [reflexivity|]. split; [reflexivity|].
  split; [reflexivity|]. split; [reflexivity|].
  split; [apply ring_value_positions|].
  split; assumption.
Qed.

Section IsochroneClaims.

Context {rt : Runtime}.

(** C8: a response whose two features are isochrone polygons (whatever
    their contour minutes, 5 and 10 included) is split into exactly two
    frames of one row each, both tagged "EPSG:4326"; the geometry of
    each row is the polygon whose ring is the ring of its feature,
    vertex for vertex, in the same order and number, and without
    holes. *)
Theorem isochrone_split_preserves_rings (walk f0 f1 : value) (c0 c1 : Z)
  (pts0 pts1 : list (float * float)) :
  walk.["features"] = Ok (VList [f0; f1]) ->
  isochrone_feature f0 c0 pts0 ->
  isochrone_feature f1 c1 pts1 ->
  exists walk_5 walk_10 row_5 row_10,
    walk_frames walk = Ok (walk_5, walk_10) /\
    crs walk_5 = "EPSG:4326" /\
    crs walk_10 = "EPSG:4326" /\
    rows (frame walk_5) = [(0, row_5)] /\
    rows (frame walk_10) = [(0, row_10)] /\
    cell "geometry" row_5 = VGeom (Polygon pts0 []) /\
    cell "geometry" row_10 = VGeom (Polygon pts1 []).
Proof.
  intros Hwalk H0 H1.
  destruct (walk_frames_isochrone walk f0 f1 c0 c1 pts0 pts1 Hwalk H0 H1)
    as (walk_5 & walk_10 & row_5 & row_10 & Hframes & Hcrs5 & Hcrs10
        & Hr5 & Hr10 & Hg5 & Hg10 & _ & _).
  exists walk_5, walk_10, row_5, row_10.
  repeat split; assumption.
Qed.

(** C10: the split goes by position.  The first output is built from
    features[0] and the second from features[1], nothing else being
    consulted; so the frame called walk_5 carries the contour and ring
    of the first feature and walk_10 those of the second, whatever the
    contours are.  In the recorded response the first feature has
    contour 10: walk_5 holds the 10-minute polygon and walk_10 the
    5-minute one. *)
Theorem split_is_positional (walk f0 f1 : value) :
  walk.["features"] = Ok (VList [f0; f1]) ->
  walk_split walk = Ok (f0, f1) /\
  walk_frames walk =
    (walk_5 <- from_features [f0] "EPSG:4326" ;;
     walk_10 <- from_features [f1] "EPSG:4326" ;;
     Ok (walk_5, walk_10)) /\
  (forall c0 c1 pts0 pts1,
     isochrone_feature f0 c0 pts0 ->
     isochrone_feature f1 c1 pts1 ->
     exists walk_5 walk_10 row_5 row_10,
       walk_frames walk = Ok (walk_5, walk_10) /\
       rows (frame walk_5) = [(0, row_5)] /\
       rows (frame walk_10) = [(0, row_10)] /\
       cell "contour" row_5 = VInt c0 /\
       cell "geometry" row_5 = VGeom (Polygon pts0 []) /\
       cell "contour" row_10 = VInt c1 /\
       cell "geometry" row_10 = VGeom (Polygon pts1 [])) /\
  (exists walk_5 walk_10 row_5 row_10,
     walk_frames walk_recorded = Ok (walk_5, walk_10) /\
     rows (frame walk_5) = [(0, row_5)] /\
     rows (frame walk_10) = [(0, row_10)] /\
     cell "contour" row_5 = VInt 10 /\
     cell "geometry" row_5 = VGeom (Polygon recorded_ring_0 []) /\
     cell "contour" row_10 = VInt 5 /\
     cell "geometry" row_10 = VGeom (Polygon recorded_ring_1 [])).
Proof.
  intro Hwalk.
  split; [now apply walk_split_two|].
  split.
  { unfold walk_frames. rewrite (walk_split_two walk f0 f1 Hwalk).
    reflexivity. }
  split.
  - intros c0 c1 pts0 pts1 H0 H1.
    destruct (walk_frames_isochrone walk f0 f1 c0 c1 pts0 pts1 Hwalk H0 H1)
      as (walk_5 & walk_10 & row_5 & row_10 & Hframes & _ & _
          & Hr5 & Hr10 & Hg5 & Hg10 & Hc5 & Hc10).
    exists walk_5, walk_10, row_5, row_10.
    repeat split; assumption.
  - destruct (walk_frames_isochrone walk_recorded
                (recorded_feature "#04e813" 10 recorded_ring_0)
                (recorded_feature "#6706ce" 5 recorded_ring_1)
                10 5 recorded_ring_0 recorded_ring_1)
      as (walk_5 & walk_10 & row_5 & row_10 & Hframes & _ & _
          & Hr5 & Hr10 & Hg5 & Hg10 & Hc5 & Hc10).
    + reflexivity.
    + apply recorded_feature_isochrone; [simpl; lia | reflexivity].
    + apply recorded_feature_isochrone; [simpl; lia | reflexivity].
    + exists walk_5, walk_10, row_5, row_10.
      repeat split; assumption.
Qed.

End IsochroneClaims.

(** On the response printed in the notebook. *)
Lemma isochrone_split_preserves_rings_witness :
  (walk_recorded.["features"] =
     Ok (VList [ recorded_feature "#04e813" 10 recorded_ring_0;
                 recorded_feature "#6706ce" 5 recorded_ring_1 ]) /\
   isochrone_feature (recorded_feature "#04e813" 10 recorded_ring_0)
     10 recorded_ring_0 /\
   isochrone_feature (recorded_feature "#6706ce" 5 recorded_ring_1)
     5 recorded_ring_1) /\
  exists walk_5 walk_10 row_5 row_10,
    walk_frames (rt := quiet_runtime) walk_recorded = Ok (walk_5, walk_10) /\
    crs walk_5 = "EPSG:4326" /\
    crs walk_10 = "EPSG:4326" /\
    rows (frame walk_5) = [(0, row_5)] /\
    rows (frame walk_10) = [(0, row_10)] /\
    cell "geometry" row_5 = VGeom (Polygon recorded_ring_0 []) /\
    cell "geometry" row_10 = VGeom (Polygon recorded_ring_1 []).
Proof.
  assert (H0 : isochrone_feature
                 (recorded_feature "#04e813" 10 recorded_ring_0)
                 10 recorded_ring_0)
    by (apply recorded_feature_isochrone; [simpl; lia | reflexivity]).
  assert (H1 : isochrone_feature
                 (recorded_feature "#6706ce" 5 recorded_ring_1)
                 5 recorded_ring_1)
    by (apply recorded_feature_isochrone; [simpl; lia | reflexivity]).
  split.
  - split; [reflexivity|]. split; assumption.
  - exact (isochrone_split_preserves_rings (rt := quiet_runtime)
             walk_recorded _ _ 10 5 recorded_ring_0 recorded_ring_1
             eq_refl H0 H1).
Defined.

(** On the response printed in the notebook. *)
Lemma split_is_positional_witness :
  walk_recorded.["features"] =
    Ok (VList [ recorded_feature "#04e813" 10 recorded_ring_0;
                recorded_feature "#6706ce" 5 recorded_ring_1 ]) /\
  walk_split walk_recorded =
    Ok (recorded_feature "#04e813" 10 recorded_ring_0,
        recorded_feature "#6706ce" 5 recorded_ring_1) /\
  walk_frames (rt := quiet_runtime) walk_recorded =
    (walk_5 <- from_features (rt := quiet_runtime)
                 [recorded_feature "#04e813" 10 recorded_ring_0] "EPSG:4326" ;;
     walk_10 <- from_features (rt := quiet_runtime)
                  [recorded_feature "#6706ce" 5 recorded_ring_1] "EPSG:4326" ;;
     Ok (walk_5, walk_10)) /\
  (forall c0 c1 pts0 pts1,
     isochrone_feature (recorded_feature "#04e813" 10 recorded_ring_0)
       c0 pts0 ->
     isochrone_feature (recorded_feature "#6706ce" 5 recorded_ring_1)
       c1 pts1 ->
     exists walk_5 walk_10 row_5 row_10,
       walk_frames (rt := quiet_runtime) walk_recorded =
         Ok (walk_5, walk_10) /\
       rows (frame walk_5) = [(0, row_5)] /\
       rows (frame walk_10) = [(0, row_10)] /\
       cell "contour" row_5 = VInt c0 /\
       cell "geometry" row_5 = VGeom (Polygon pts0 []) /\
       cell "contour" row_10 = VInt c1 /\
       cell "geometry" row_10 = VGeom (Polygon pts1 [])) /\
  (exists walk_5 walk_10 row_5 row_10,
     walk_frames (rt := quiet_runtime) walk_recorded =
       Ok (walk_5, walk_10) /\
     rows (frame walk_5) = [(0, row_5)] /\
     rows (frame walk_10) = [(0, row_10)] /\
     cell "contour" row_5 = VInt 10 /\
     cell "geometry" row_5 = VGeom (Polygon recorded_ring_0 []) /\
     cell "contour" row_10 = VInt 5 /\
     cell "geometry" row_10 = VGeom (Polygon recorded_ring_1 [])).
Proof.
  split; [reflexivity|].
  exact (split_is_positional (rt := quiet_runtime) walk_recorded
           _ _ eq_refl).
Defined.

(** The recorded response through the two cells: sizes, tags and
    contours of the frames named walk_5 and walk_10. *)
Example walk_frames_recorded :
  (w <- walk_frames (rt := quiet_runtime) walk_recorded ;;
   Ok (glen (fst w), crs (fst w),
       map (fun r => cell "contour" (snd r)) (rows (frame (fst w))),
       glen (snd w), crs (snd w),
       map (fun r => cell "contour" (snd r)) (rows (frame (snd w))))) =
  Ok (1%nat, "EPSG:4326", [VInt 10], 1%nat, "EPSG:4326", [VInt 5]).
Proof. vm_compute. reflexivity. Qed.

(** A ring sent open comes back with one vertex more: the first
    position is repeated at the end. *)
Example open_ring_is_closed :
  (gdf <- from_features (rt := quiet_runtime) [open_feature] "EPSG:4326" ;;
   Ok (map (fun r => cell "geometry" (snd r)) (rows (frame gdf)))) =
  Ok [VGeom (Polygon (open_ring ++ [(0%float, 0%float)]) [])].
Proof. vm_compute. reflexivity. Qed.

(** * Further properties of the notebook's cells *)

(** ** The normalizer, access by access *)

Section NormalizerAccesses.

Context {rt : Runtime}.

Lemma float_at_raise (cr : value) (path : list string) (e : exn) :
  getpath cr path = Raise e -> float_at cr path = Raise e.
Proof. intro H. unfold float_at. now rewrite H. Qed.

(** [parse_ss_event] as a chain over its ten access paths, in source
    order. *)
Lemma parse_ss_event_paths (cr : value) :
  parse_ss_event cr =
  (a <- getpath cr ["age_range"] ;;
   o <- getpath cr ["outcome"] ;;
   inv <- getpath cr ["involved_person"] ;;
   g <- getpath cr ["gender"] ;;
   e <- getpath cr ["self_defined_ethnicity"] ;;
   sid <- getpath cr ["location"; "street"; "id"] ;;
   lon <- float_at cr ["location"; "longitude"] ;;
   lat <- float_at cr ["location"; "latitude"] ;;
   d <- getpath cr ["datetime"] ;;
   off <- getpath cr ["officer_defined_ethnicity"] ;;
   Ok [ ("age_range", a); ("outcome", o); ("involed_person", inv);
        ("gender", g); ("self_defined_ethnicity", e);
        ("street_id", sid); ("longitude", VFloat lon);
        ("latitude", VFloat lat); ("date", d);
        ("officer_ethnicity", off) ]).
Proof.
  unfold parse_ss_event, float_at. cbn [getpath].
  repeat match goal with
    | |- context [getitem ?v ?k] =>
        destruct (getitem v k); cbn [bind]; try reflexivity
    | |- context [py_float ?v] =>
        destruct (py_float v); cbn [bind]; try reflexivity
    end.
Qed.

(** X1: a raw record is accepted exactly when each of the ten access
    paths exists in it and its two coordinate values go through
    [float]. *)
Theorem parse_ss_event_accepts_iff (cr : value) :
  is_ok (parse_ss_event cr) = true <->
  (forall path, In path required_paths -> is_ok (getpath cr path) = true) /\
  is_ok (float_at cr ["location"; "longitude"]) = true /\
  is_ok (float_at cr ["location"; "latitude"]) = true.
Proof.
  rewrite parse_ss_event_paths. split.
  - intro H.
    assert (Hlon : is_ok (float_at cr ["location"; "longitude"]) = true).
    { repeat match type of H with
        | is_ok (bind (float_at cr ["location"; "longitude"]) _) = true =>
            destruct (float_at cr ["location"; "longitude"]);
            [reflexivity | discriminate H]
        | is_ok (bind ?m _) = true =>
            destruct m; cbn [bind] in H; [|discriminate H]
        end. }
    assert (Hlat : is_ok (float_at cr ["location"; "latitude"]) = true).
    { repeat match type of H with
        | is_ok (bind (float_at cr ["location"; "latitude"]) _) = true =>
            destruct (float_at cr ["location"; "latitude"]);
            [reflexivity | discriminate H]
        | is_ok (bind ?m _) = true =>
            destruct m; cbn [bind] in H; [|discriminate H]
        end. }
    split; [|split; assumption].
    assert (Hlonp : is_ok (getpath cr ["location"; "longitude"]) = true).
    { unfold float_at in Hlon.
      destruct (getpath cr ["location"; "longitude"]);
        [reflexivity | discriminate Hlon]. }
    assert (Hlatp : is_ok (getpath cr ["location"; "latitude"]) = true).
    { unfold float_at in Hlat.
      destruct (getpath cr ["location"; "latitude"]);
        [reflexivity | discriminate Hlat]. }
    intros path Hin. simpl in Hin.
    repeat (destruct Hin as [<-|Hin]; [
      first [ assumption
            | repeat match type of H with
                | is_ok (bind (getpath cr ?p) _) = true =>
                    destruct (getpath cr p);
                    [first [reflexivity | cbn [bind] in H]
                    | discriminate H]
                | is_ok (bind (float_at cr ?p) _) = true =>
                    destruct (float_at cr p);
                    [cbn [bind] in H | discriminate H]
                end ] | ]).
    contradiction.
  - intros (Hpaths & Hlon & Hlat).
    repeat match goal with
      | |- context [bind (getpath cr ?p) _] =>
          let Hp := fresh in
          assert (Hp : is_ok (getpath cr p) = true)
            by (apply Hpaths; simpl; tauto);
          destruct (getpath cr p); [cbn [bind] | discriminate Hp]; clear Hp
      | |- context [bind (float_at cr ?p) _] =>
          destruct (float_at cr p);
          [cbn [bind] | first [discriminate Hlon | discriminate Hlat]]
      end.
    reflexivity.
Qed.

(** X2: nothing but the ten access paths is read.  Two raw records that
    agree on them have the same outcome, be it a row or an exception;
    legislation, search object, operation and the other keys have no
    influence. *)
Theorem parse_ss_event_reads_ten_paths (cr cr' : value) :
  (forall path, In path required_paths ->
     getpath cr path = getpath cr' path) ->
  parse_ss_event cr = parse_ss_event cr'.
Proof.
  intro H. rewrite !parse_ss_event_paths. unfold float_at.
  repeat match goal with
    | |- context [getpath cr ?p] =>
        rewrite (H p) by (simpl; tauto)
    end.
  reflexivity.
Qed.

(** X3: the exception is that of the first access, in source order,
    that fails: when the paths before it exist (and the coordinates
    before it convert), the record is rejected with the exception of
    that access. *)
Theorem parse_ss_event_first_failure (cr : value) (pre post : list (list string))
  (path : list string) (e : exn) :
  required_paths = (pre ++ path :: post)%list ->
  (forall p, In p pre -> is_ok (getpath cr p) = true) ->
  (In ["location"; "longitude"] pre ->
     is_ok (float_at cr ["location"; "longitude"]) = true) ->
  (In ["location"; "latitude"] pre ->
     is_ok (float_at cr ["location"; "latitude"]) = true) ->
  getpath cr path = Raise e ->
  parse_ss_event cr = Raise e.
Proof.
  intros Hsplit Hpre Hlon Hlat Hfail.
  rewrite parse_ss_event_paths.
  unfold required_paths in Hsplit.
  repeat (destruct pre as [|? pre]; cbn [app] in Hsplit;
          [ injection Hsplit as <- <- | injection Hsplit as <- Hsplit ]);
    try (destruct pre; discriminate Hsplit);
    repeat match goal with
      | |- context [bind (getpath cr ?p) _] =>
          first
            [ rewrite Hfail; reflexivity
            | let Hp := fresh in
              assert (Hp : is_ok (getpath cr p) = true)
                by (apply Hpre; simpl; tauto);
              destruct (getpath cr p);
              [cbn [bind] | discriminate Hp]; clear Hp ]
      | |- context [bind (float_at cr ?p) _] =>
          first
            [ rewrite (float_at_raise cr p e Hfail); reflexivity
            | let Hp := fresh in
              assert (Hp : is_ok (float_at cr p) = true)
                by (first [apply Hlon | apply Hlat]; simpl; tauto);
              destruct (float_at cr p);
              [cbn [bind] | discriminate Hp]; clear Hp ]
      end.
Qed.

(** X4: a coordinate that [float] refuses rejects the record with the
    exception of [float], provided the accesses before it succeed: a
    text that is no number gives [ValueError], a null [TypeError]; the
    longitude is converted before the latitude is read. *)
Theorem parse_ss_event_float_failure (cr lonv : value) (e : exn) :
  (forall p, In p (firstn 6 required_paths) -> is_ok (getpath cr p) = true) ->
  getpath cr ["location"; "longitude"] = Ok lonv ->
  (py_float lonv = Raise e -> parse_ss_event cr = Raise e) /\
  (forall lon latv,
     py_float lonv = Ok lon ->
     getpath cr ["location"; "latitude"] = Ok latv ->
     py_float latv = Raise e ->
     parse_ss_event cr = Raise e).
Proof.
  intros Hpre Hv.
  rewrite parse_ss_event_paths.
  repeat match goal with
    | |- context [bind (getpath cr ?p) _] =>
        let Hp := fresh in
        assert (Hp : is_ok (getpath cr p) = true)
          by (apply Hpre; simpl; tauto);
        destruct (getpath cr p);
        [cbn [bind] | discriminate Hp]; clear Hp
    end.
  unfold float_at. rewrite Hv. cbn [bind]. split.
  - intro Hfloat. rewrite Hfloat. reflexivity.
  - intros lon latv Hlon Hlatv Hlat.
    rewrite Hlon. cbn [bind]. rewrite Hlatv. cbn [bind]. rewrite Hlat.
    reflexivity.
Qed.

End NormalizerAccesses.

(** On the recorded record and a copy with other grounds of search. *)
Lemma parse_ss_event_reads_ten_paths_witness :
  (forall path, In path required_paths ->
     getpath ss0 path = getpath ss0_other_grounds path) /\
  parse_ss_event (rt := quiet_runtime) ss0 =
  parse_ss_event (rt := quiet_runtime) ss0_other_grounds.
Proof.
  assert (H : forall path, In path required_paths ->
                getpath ss0 path = getpath ss0_other_grounds path).
  { intros path Hin. simpl in Hin.
    repeat (destruct Hin as [<-|Hin]; [reflexivity|]). contradiction. }
  split; [exact H|].
  exact (parse_ss_event_reads_ten_paths (rt := quiet_runtime)
           ss0 ss0_other_grounds H).
Defined.

(** On the recorded record with a null location: the street access is
    the first to fail. *)
Lemma parse_ss_event_first_failure_witness :
  (required_paths =
     ([ ["age_range"]; ["outcome"]; ["involved_person"]; ["gender"];
        ["self_defined_ethnicity"] ] ++
      ["location"; "street"; "id"] ::
      [ ["location"; "longitude"]; ["location"; "latitude"];
        ["datetime"]; ["officer_defined_ethnicity"] ])%list /\
   getpath ss0_no_location ["location"; "street"; "id"] = Raise TypeError) /\
  parse_ss_event (rt := quiet_runtime) ss0_no_location = Raise TypeError.
Proof.
  split; [split; reflexivity|].
  apply (parse_ss_event_first_failure (rt := quiet_runtime) ss0_no_location
           [ ["age_range"]; ["outcome"]; ["involved_person"]; ["gender"];
             ["self_defined_ethnicity"] ]
           [ ["location"; "longitude"]; ["location"; "latitude"];
             ["datetime"]; ["officer_defined_ethnicity"] ]
           ["location"; "street"; "id"] TypeError).
  - reflexivity.
  - intros p Hin. simpl in Hin.
    repeat (destruct Hin as [<-|Hin]; [reflexivity|]). contradiction.
  - intro Hin. simpl in Hin.
    repeat (destruct Hin as [Hin|Hin]; [discriminate Hin|]). contradiction.
  - intro Hin. simpl in Hin.
    repeat (destruct Hin as [Hin|Hin]; [discriminate Hin|]). contradiction.
  - reflexivity.
Defined.

(** On the recorded record with the longitude "west". *)
Lemma parse_ss_event_float_failure_witness :
  (getpath ss0_bad_longitude ["location"; "longitude"] = Ok (VStr "west") /\
   py_float (rt := quiet_runtime) (VStr "west") = Raise ValueError) /\
  parse_ss_event (rt := quiet_runtime) ss0_bad_longitude = Raise ValueError.
Proof.
  split; [split; reflexivity|].
  apply (parse_ss_event_float_failure (rt := quiet_runtime)
           ss0_bad_longitude (VStr "west") ValueError).
  - intros p Hin. simpl in Hin.
    repeat (destruct Hin as [<-|Hin]; [reflexivity|]). contradiction.
  - reflexivity.
  - reflexivity.
Defined.

(** On the March batch: the key error of the second record. *)
Lemma parsing_first_rejected_witness :
  (Forall (fun x => is_ok (parse_ss_event (rt := quiet_runtime) x) = true)
     [ss0] /\
   parse_ss_event (rt := quiet_runtime) ss0_no_latitude =
     Raise (KeyError "latitude")) /\
  parsing (rt := quiet_runtime) (VList ([ss0] ++ ss0_no_latitude :: [ss0])) =
    Raise (KeyError "latitude").
Proof.
  assert (H : Forall
                (fun x => is_ok (parse_ss_event (rt := quiet_runtime) x) = true)
                [ss0]) by (constructor; [reflexivity | constructor]).
  split; [split; [exact H | reflexivity]|].
  exact (parsing_first_rejected (rt := quiet_runtime) [ss0] [ss0]
           ss0_no_latitude (KeyError "latitude") H eq_refl).
Defined.

(** ** Parsing a response *)

Lemma enumerate_fst {A : Type} (n : nat) (l : list A) :
  map fst (enumerate (Z.of_nat n) l) = map Z.of_nat (seq n (List.length l)).
Proof.
  revert n; induction l as [|a l IH]; intro n; simpl; [reflexivity|].
  f_equal. rewrite <- IH. f_equal. f_equal. lia.
Qed.

Lemma DataFrame_of_labels (parsed : list Series) :
  map fst (rows (DataFrame_of parsed)) = range (len (DataFrame_of parsed)).
Proof.
  unfold range, len. simpl. rewrite enumerate_length.
  exact (enumerate_fst 0 parsed).
Qed.

Section ParsingResponses.

Context {rt : Runtime}.

(** Whatever is parsed is a frame built from a list of rows. *)
Lemma parsing_frame (response : value) (t : DataFrame) :
  parsing response = Ok t -> exists parsed, t = DataFrame_of parsed.
Proof.
  unfold parsing. intro H. bind_inv H.
  destruct (parsing_loop v []) as [parsed|]; simpl in H; [|discriminate H].
  injection H as <-. now exists parsed.
Qed.

(** X6: a response that is not a JSON array never yields records.  A
    JSON object or text (an error body, say) is iterated key by key or
    character by character and the first item is rejected with a
    [TypeError]; a number, boolean or null cannot be iterated at all;
    only the empty object and the empty text pass, as a frame without
    rows or columns. *)
Theorem parsing_non_array (response : value) :
  match response with
  | VList _ => True
  | VDict [] => parsing response = Ok empty_frame
  | VStr EmptyString => parsing response = Ok empty_frame
  | _ => parsing response = Raise TypeError
  end.
Proof.
  destruct response as [| | | |s|l|d|]; try reflexivity; try exact I.
  - destruct s; reflexivity.
  - destruct d as [|[k v] d]; reflexivity.
Qed.

(** X7: an accepted batch gives one row per record, in the order of the
    response, labelled 0, 1, 2, ...; the i-th row is the normalized i-th
    record. *)
Theorem parsing_rows_in_order (crimes : list value) (t : DataFrame) :
  parsing (VList crimes) = Ok t ->
  len t = List.length crimes /\
  map fst (rows t) = range (List.length crimes) /\
  Forall2 (fun cr r => parse_ss_event cr = Ok (snd r)) crimes (rows t).
Proof.
  rewrite parsing_list. intro H. bind_inv H. injection H as <-.
  pose proof (mapM_length _ _ _ E) as Hlen.
  split.
  { unfold len. simpl. now rewrite enumerate_length. }
  split.
  { rewrite DataFrame_of_labels. unfold len. simpl.
    now rewrite enumerate_length, Hlen. }
  apply mapM_Forall2 in E. simpl.
  generalize 0. induction E as [|cr row crimes parsed Hrow _ IH];
    intro start; simpl; constructor; auto.
Qed.

End ParsingResponses.

(** On a batch of two records. *)
Lemma parsing_rows_in_order_witness :
  parsing (rt := quiet_runtime) (VList [ss_black_youth; ss0]) =
    Ok (DataFrame_of
          [ [ ("age_range", VStr "18-24"); ("outcome", VStr "Arrest");
              ("involed_person", VBool true); ("gender", VStr "Male");
              ("self_defined_ethnicity", VStr black_label);
              ("street_id", VInt 912345);
              ("longitude", VFloat (-2.982918)%float);
              ("latitude", VFloat 53.404856%float);
              ("date", VStr "2020-01-06T10:11:23+00:00");
              ("officer_ethnicity", VStr "White") ];
            [ ("age_range", VStr "over 34"); ("outcome", VStr "Arrest");
              ("involed_person", VBool true); ("gender", VStr "Male");
              ("self_defined_ethnicity",
                VStr "White - English/Welsh/Scottish/Northern Irish/British");
              ("street_id", VInt 914481);
              ("longitude", VFloat (-2.961643)%float);
              ("latitude", VFloat 53.420561%float);
              ("date", VStr "2020-01-06T10:11:23+00:00");
              ("officer_ethnicity", VStr "White") ] ]) /\
  map fst
    (rows (match parsing (rt := quiet_runtime) (VList [ss_black_youth; ss0])
           with Ok t => t | Raise _ => empty_frame end)) = range 2.
Proof.
  assert (H : parsing (rt := quiet_runtime) (VList [ss_black_youth; ss0]) =
              Ok (match parsing (rt := quiet_runtime)
                          (VList [ss_black_youth; ss0])
                  with Ok t => t | Raise _ => empty_frame end))
    by reflexivity.
  split; [reflexivity|].
  exact (proj1 (proj2 (parsing_rows_in_order (rt := quiet_runtime) _ _ H))).
Defined.

(** An error body in place of the array of records. *)
Example parsing_error_body :
  parsing (rt := quiet_runtime) error_body = Raise TypeError.
Proof. reflexivity. Qed.

(** ** The monthly requests and the annual table *)

Lemma append_length (a b : string) :
  String.length (a ++ b) = (String.length a + String.length b)%nat.
Proof. induction a as [|c a IH]; simpl; [reflexivity | now rewrite IH]. Qed.

Lemma append_inv_head (p a b : string) : p ++ a = p ++ b -> a = b.
Proof.
  induction p as [|c p IH]; simpl; intro H; [exact H|].
  injection H as H. now apply IH.
Qed.

(** Two splits of one text with tails of the same length coincide. *)
Lemma append_inv_tail (a a' b b' : string) :
  a ++ b = a' ++ b' -> String.length b = String.length b' ->
  a = a' /\ b = b'.
Proof.
  revert a'; induction a as [|c a IH]; intros [|c' a'] H Hlen; simpl in H.
  - now split.
  - exfalso. apply (f_equal String.length) in H. simpl in H.
    rewrite append_length in H. lia.
  - exfalso. apply (f_equal String.length) in H. simpl in H.
    rewrite append_length in H. lia.
  - injection H as -> H. destruct (IH a' H Hlen) as [-> ->]. now split.
Qed.

Lemma NoDup_app_In {A : Type} (l1 l2 : list A) (x : A) :
  NoDup (l1 ++ l2) -> In x l1 -> In x l2 -> False.
Proof.
  induction l1 as [|a l1 IH]; simpl; intros Hnd H1 H2; [exact H1|].
  inversion Hnd as [|? ? Hnotin Hnd']; subst.
  destruct H1 as [->|H1]; [|now apply IH].
  apply Hnotin. apply in_or_app. now right.
Qed.

Lemma NoDup_map_on {A B : Type} (f : A -> B) (l : list A) :
  NoDup l ->
  (forall a b, In a l -> In b l -> f a = f b -> a = b) ->
  NoDup (map f l).
Proof.
  induction 1 as [|a l Hnotin _ IH]; simpl; intro Hinj; constructor.
  - intro Hin. apply in_map_iff in Hin as (b & Hb & Hinb).
    apply Hnotin. rewrite (Hinj a b); auto.
  - apply IH. intros x y Hx Hy. apply Hinj; now right.
Qed.

Lemma range_zero (n : nat) : n <> 0%nat -> In 0 (range n).
Proof. destruct n; [congruence|]. intros _. now left. Qed.

(** X8: the request URL determines the month and the year.  Two
    requests with month texts of the same length (two digits in the
    notebook) have the same URL only if month and year agree; the twelve
    URLs of a year are pairwise distinct. *)
Theorem month_url_injective (month year month' year' : string) :
  String.length month = String.length month' ->
  month_url month year = month_url month' year' ->
  (month = month' /\ year = year') /\
  NoDup (map (fun m => month_url m year) months).
Proof.
  assert (Hinj : forall m y m' y',
            String.length m = String.length m' ->
            month_url m y = month_url m' y' -> m = m' /\ y = y').
  { intros m y m' y' Hlen Hurl.
    change (month_url m y) with
      (("https://data.police.uk/api/stops-street?poly=" ++ poly ++ "&date=")
         ++ (y ++ "-" ++ m)) in Hurl.
    change (month_url m' y') with
      (("https://data.police.uk/api/stops-street?poly=" ++ poly ++ "&date=")
         ++ (y' ++ "-" ++ m')) in Hurl.
    apply append_inv_head in Hurl.
    apply append_inv_tail in Hurl as [Hy Hm]; [|simpl; now rewrite Hlen].
    injection Hm as Hm. now split. }
  intros Hlen Hurl. split; [now apply Hinj|].
  apply NoDup_map_on.
  - unfold months.
    repeat (constructor; [simpl; intuition discriminate|]). constructor.
  - intros a b Ha Hb Hab.
    apply (Hinj a year b year); [|exact Hab].
    unfold months in Ha, Hb. simpl in Ha, Hb.
    repeat (destruct Ha as [<-|Ha]; [
      repeat (destruct Hb as [<-|Hb]; [reflexivity|]); contradiction |]).
    contradiction.
Qed.

Section AnnualTable.

Context {rt : Runtime}.

Lemma get_month_crime_labels (month year : string) (t : DataFrame) :
  get_month_crime month year = Ok t -> map fst (rows t) = range (len t).
Proof.
  unfold get_month_crime. intro H. bind_inv H.
  apply parsing_frame in H as [parsed ->]. apply DataFrame_of_labels.
Qed.

(** X9: the index of the annual table is not renumbered.  Its labels
    are those of the first month, 0 to n-1, followed by those of the
    second month, again from 0, and so on; as soon as two months hold a
    record the labels are not unique. *)
Theorem annual_index_restarts (year : string) (tables : list DataFrame)
  (annual : DataFrame) :
  Forall2 (fun month t => get_month_crime month year = Ok t) months tables ->
  yearly_crimes year = Ok annual ->
  map fst (rows annual) = List.concat (map (fun t => range (len t)) tables) /\
  (forall pre a mid b post,
     tables = (pre ++ a :: mid ++ b :: post)%list ->
     len a <> 0%nat -> len b <> 0%nat ->
     ~ NoDup (map fst (rows annual))).
Proof.
  intros Hmonths Hyear.
  assert (Hlabels : map fst (rows annual) =
                    List.concat (map (fun t => range (len t)) tables)).
  { unfold yearly_crimes in Hyear.
    pose proof (proj2 (mapM_Forall2 _ _ _) Hmonths) as Hmap.
    rewrite Hmap in Hyear. cbn [bind] in Hyear.
    assert (Hne : tables <> []).
    { intros ->. inversion Hmonths. }
    destruct (concat_rows tables Hne) as (df & Hdf & Hrows & _).
    rewrite Hdf in Hyear. injection Hyear as <-. rewrite Hrows.
    rewrite concat_map, map_map. f_equal.
    clear -Hmonths. induction Hmonths as [|m t ms ts Hm _ IH]; simpl;
      [reflexivity|].
    rewrite IH. f_equal. now apply get_month_crime_labels with (year := year)
                                   (month := m). }
  split; [exact Hlabels|].
  intros pre a mid b post -> Ha Hb Hnd.
  rewrite Hlabels in Hnd.
  rewrite map_app, concat_app in Hnd. apply NoDup_app_remove_l in Hnd.
  cbn [map List.concat] in Hnd.
  apply (NoDup_app_In _ _ 0 Hnd); [now apply range_zero|].
  rewrite map_app, concat_app. apply in_or_app. right.
  cbn [map List.concat]. apply in_or_app. left. now apply range_zero.
Qed.

(** X10: the twelve months are fetched and parsed in order and the
    first failure ends the cell: when the months before [month] yield
    tables and [month] raises, the annual table and the spatial table
    are not built and the exception is that of [month], whatever the
    later months hold. *)
Theorem yearly_crimes_first_failure (year month : string)
  (pre post : list string) (e : exn) :
  months = (pre ++ month :: post)%list ->
  Forall (fun m => is_ok (get_month_crime m year) = true) pre ->
  get_month_crime month year = Raise e ->
  yearly_crimes year = Raise e /\
  (year = "2020" -> crimes_geodf_20 = Raise e).
Proof.
  intros Hsplit Hpre Hfail.
  assert (Hyear : yearly_crimes year = Raise e).
  { unfold yearly_crimes. rewrite Hsplit.
    now rewrite (mapM_first_raise _ pre post month e Hpre Hfail). }
  split; [exact Hyear|].
  intros ->. unfold crimes_geodf_20, yearly_crimes_20. now rewrite Hyear.
Qed.

(** X11: what the annual table looks like.  Every row has exactly the
    ten labels of the normalizer, in its order, with floats under
    longitude and latitude; the table has these ten columns when it has
    a row and no column at all when it has none. *)
Theorem annual_table_shape (year : string) (annual : DataFrame) :
  yearly_crimes year = Ok annual ->
  Forall (fun r =>
            labels (snd r) = ss_labels /\
            exists lon lat,
              cell "longitude" (snd r) = VFloat lon /\
              cell "latitude" (snd r) = VFloat lat)
    (rows annual) /\
  (rows annual <> [] -> columns annual = ss_labels) /\
  (rows annual = [] -> columns annual = []).
Proof.
  intro H. destruct (yearly_crimes_invariant year annual H) as [Hrows Hcols].
  split.
  - apply (proj1 (Forall_map _ _ _)) in Hrows.
    eapply Forall_impl; [|exact Hrows].
    intros [i s] (Hl & lon & lat & Hlon & Hlat). simpl in *.
    split; [exact Hl|].
    exists lon, lat. unfold cell. now rewrite Hlon, Hlat.
  - rewrite Hcols. destruct (rows annual); split; congruence.
Qed.

End AnnualTable.

(** On the January request. *)
Lemma month_url_injective_witness :
  (String.length "01" = String.length "01" /\
   month_url "01" "2020" = month_url "01" "2020") /\
  ("01" = "01" /\ "2020" = "2020") /\
  NoDup (map (fun m => month_url m "2020") months).
Proof.
  split; [split; reflexivity|].
  exact (month_url_injective "01" "2020" "01" "2020" eq_refl eq_refl).
Defined.

(** On the sample network: labels 0 of January, then 0 and 1 of
    March. *)
Lemma annual_index_restarts_witness :
  exists tables annual,
    Forall2 (fun month t =>
               get_month_crime (rt := spring_runtime) month "2020" = Ok t)
      months tables /\
    yearly_crimes (rt := spring_runtime) "2020" = Ok annual /\
    map fst (rows annual) =
      List.concat (map (fun t => range (len t)) tables) /\
    map fst (rows annual) = [0; 0; 1] /\
    (forall pre a mid b post,
       tables = (pre ++ a :: mid ++ b :: post)%list ->
       len a <> 0%nat -> len b <> 0%nat ->
       ~ NoDup (map fst (rows annual))).
Proof.
  do 2 eexists.
  assert (H : Forall2 (fun month t =>
               get_month_crime (rt := spring_runtime) month "2020" = Ok t)
            months
            (map (fun month =>
                    match get_month_crime (rt := spring_runtime) month "2020"
                    with Ok t => t | Raise _ => empty_frame end)
               months)).
  { unfold months. simpl map.
    repeat (constructor; [vm_compute; reflexivity|]). constructor. }
  assert (Hy : yearly_crimes (rt := spring_runtime) "2020" =
               Ok (match yearly_crimes (rt := spring_runtime) "2020" with
                   | Ok t => t
                   | Raise _ => empty_frame
                   end)) by (vm_compute; reflexivity).
  split; [exact H|]. split; [exact Hy|].
  pose proof (annual_index_restarts (rt := spring_runtime) "2020" _ _ H Hy)
    as [Hlabels Hdup].
  split; [exact Hlabels|]. split; [vm_compute; reflexivity | exact Hdup].
Defined.

(** On a network where May cannot be fetched and July holds a bad
    record: the exception is May's. *)
Lemma yearly_crimes_first_failure_witness :
  (months = (["01"; "02"; "03"; "04"] ++
             "05" :: ["06"; "07"; "08"; "09"; "10"; "11"; "12"])%list /\
   Forall (fun m =>
             is_ok (get_month_crime (rt := failing_runtime) m "2020") = true)
     ["01"; "02"; "03"; "04"] /\
   get_month_crime (rt := failing_runtime) "05" "2020" = Raise ValueError /\
   get_month_crime (rt := failing_runtime) "07" "2020" =
     Raise (KeyError "latitude")) /\
  yearly_crimes (rt := failing_runtime) "2020" = Raise ValueError /\
  ("2020" = "2020" ->
   crimes_geodf_20 (rt := failing_runtime) = Raise ValueError).
Proof.
  assert (Hpre : Forall (fun m =>
             is_ok (get_month_crime (rt := failing_runtime) m "2020") = true)
            ["01"; "02"; "03"; "04"]).
  { repeat (constructor; [vm_compute; reflexivity|]). constructor. }
  assert (Hmay : get_month_crime (rt := failing_runtime) "05" "2020" =
                 Raise ValueError) by (vm_compute; reflexivity).
  split.
  - split; [reflexivity|]. split; [exact Hpre|].
    split; [exact Hmay | vm_compute; reflexivity].
  - exact (yearly_crimes_first_failure (rt := failing_runtime) "2020" "05"
             ["01"; "02"; "03"; "04"]
             ["06"; "07"; "08"; "09"; "10"; "11"; "12"] ValueError
             eq_refl Hpre Hmay).
Defined.

(** On the annual table of the sample network. *)
Lemma annual_table_shape_witness :
  exists annual,
    yearly_crimes (rt := spring_runtime) "2020" = Ok annual /\
    Forall (fun r =>
              labels (snd r) = ss_labels /\
              exists lon lat,
                cell "longitude" (snd r) = VFloat lon /\
                cell "latitude" (snd r) = VFloat lat)
      (rows annual) /\
    (rows annual <> [] -> columns annual = ss_labels) /\
    (rows annual = [] -> columns annual = []).
Proof.
  eexists.
  assert (Hy : yearly_crimes (rt := spring_runtime) "2020" =
               Ok (match yearly_crimes (rt := spring_runtime) "2020" with
                   | Ok t => t
                   | Raise _ => empty_frame
                   end)) by (vm_compute; reflexivity).
  split; [exact Hy|].
  exact (annual_table_shape (rt := spring_runtime) "2020" _ Hy).
Defined.

(** ** Subsets taken with one and with two conditions *)

Lemma mask_and_map {A : Type} (p q : A -> bool) (l : list A) :
  mask_and (map p l) (map q l) = map (fun a => p a && q a) l.
Proof.
  induction l as [|a l IH]; simpl; [reflexivity | now rewrite IH].
Qed.

Lemma filter_and_length {A : Type} (p q : A -> bool) (l : list A) :
  (List.length (filter (fun a => p a && q a) l) <= List.length (filter p l) /\
   List.length (filter (fun a => p a && q a) l) <= List.length (filter q l))%nat.
Proof.
  induction l as [|a l [IH1 IH2]]; simpl; [lia|].
  destruct (p a), (q a); simpl; lia.
Qed.

Lemma filter_incl_excl {A : Type} (p q : A -> bool) (l : list A) :
  (List.length (filter p l) + List.length (filter q l) =
   List.length (filter (fun a => p a || q a) l) +
   List.length (filter (fun a => p a && q a) l))%nat.
Proof.
  induction l as [|a l IH]; simpl; [reflexivity|].
  destruct (p a), (q a); simpl; lia.
Qed.

Lemma where_contains_missing (gdf : GeoDataFrame) (col pat : string) :
  mem col (columns (frame gdf)) = false ->
  where_contains gdf col pat = Raise (KeyError col).
Proof.
  intro H. unfold where_contains, df_getitem. now rewrite H.
Qed.

Lemma where_contains_refused (gdf : GeoDataFrame) (col pat : string) :
  mem col (columns (frame gdf)) = true ->
  str_contains pat (column_of col (rows (frame gdf))) = Raise AttributeError ->
  where_contains gdf col pat = Raise AttributeError.
Proof.
  intros Hmem Hstr. unfold where_contains, df_getitem. rewrite Hmem.
  cbn [bind]. fold (column_of col (rows (frame gdf))). now rewrite Hstr.
Qed.

(** What the two-condition cell returns when it returns. *)
Lemma where_both_inv (gdf sub : GeoDataFrame) (col1 pat1 col2 pat2 : string) :
  where_both gdf col1 pat1 col2 pat2 = Ok sub ->
  mem col1 (columns (frame gdf)) = true /\
  mem col2 (columns (frame gdf)) = true /\
  sub = {| frame :=
             {| columns := columns (frame gdf);
                rows := filter (fun r => cell_contains col1 pat1 r &&
                                         cell_contains col2 pat2 r)
                          (rows (frame gdf)) |};
           crs := crs gdf |}.
Proof.
  unfold where_both, df_getitem. intro H.
  destruct (mem col1 (columns (frame gdf))); [|discriminate H].
  cbn [bind] in H. fold (column_of col1 (rows (frame gdf))) in H.
  destruct (str_contains pat1 (column_of col1 (rows (frame gdf))))
    as [mask1|] eqn:E1; [|discriminate H].
  cbn [bind] in H.
  destruct (mem col2 (columns (frame gdf))); [|discriminate H].
  cbn [bind] in H. fold (column_of col2 (rows (frame gdf))) in H.
  destruct (str_contains pat2 (column_of col2 (rows (frame gdf))))
    as [mask2|] eqn:E2; [|discriminate H].
  cbn [bind] in H. injection H as <-.
  apply str_contains_inv in E1, E2. subst mask1 mask2.
  now rewrite !contains_mask_cells, mask_and_map, boolean_mask_map.
Qed.

(** When the second column holds strings and nulls, the two-condition
    selection is the first selection filtered by the second condition,
    exceptions included. *)
Lemma where_both_sequential (gdf : GeoDataFrame) (col1 pat1 col2 pat2 : string) :
  text_column gdf col2 ->
  where_both gdf col1 pat1 col2 pat2 =
  (s <- where_contains gdf col1 pat1 ;; where_contains s col2 pat2).
Proof.
  intro Htext. unfold text_column in Htext.
  destruct (mem col1 (columns (frame gdf))) eqn:H1.
  2:{ rewrite where_contains_missing by exact H1.
      unfold where_both, df_getitem. now rewrite H1. }
  destruct (str_contains_raises pat1 (column_of col1 (rows (frame gdf))))
    as [Hstr|Hstr].
  2:{ rewrite (where_contains_refused gdf col1 pat1 H1 Hstr).
      unfold where_both, df_getitem. rewrite H1. cbn [bind].
      fold (column_of col1 (rows (frame gdf))). now rewrite Hstr. }
  rewrite (where_contains_filter gdf col1 pat1 H1 Hstr). cbn [bind].
  destruct (mem col2 (columns (frame gdf))) eqn:H2.
  - rewrite where_contains_filter;
      [ | exact H2
        | cbn [frame rows]; now apply str_contains_text, text_column_filter ].
    unfold where_both, df_getitem. rewrite H1, H2. cbn [bind].
    fold (column_of col1 (rows (frame gdf))).
    fold (column_of col2 (rows (frame gdf))).
    rewrite Hstr, (str_contains_text pat2 _ Htext). cbn [bind].
    rewrite !contains_mask_cells, mask_and_map, boolean_mask_map.
    cbn [frame rows columns crs]. now rewrite filter_filter.
  - rewrite where_contains_missing by exact H2.
    unfold where_both, df_getitem. rewrite H1, H2. cbn [bind].
    fold (column_of col1 (rows (frame gdf))). now rewrite Hstr.
Qed.

(** X12: on a table whose outcome and self_defined_ethnicity columns
    hold strings and nulls, the subsets taken with two conditions are
    the one-condition subsets filtered once more: the Black arrests are
    the arrests among [black], the White arrests those among [white],
    and the stops of Black citizens by Black officers are the Black
    citizens among the stops by Black officers; a missing column or a
    refused officer_ethnicity column raises the same exception either
    way.  (Without the condition the two forms differ: [.str] judges
    the whole column in one form and the subset's column in the
    other.) *)
Theorem two_conditions_are_nested_subsets (crimes : GeoDataFrame) :
  text_column crimes "self_defined_ethnicity" ->
  text_column crimes "outcome" ->
  bk_arrested crimes = (b <- black crimes ;; arrested b) /\
  wh_arrested crimes = (w <- white crimes ;; arrested w) /\
  b_2_b crimes =
    (o <- where_contains crimes "officer_ethnicity" "Black" ;; black o).
Proof.
  intros Hethnicity Houtcome.
  unfold bk_arrested, wh_arrested, b_2_b, black, white, arrested.
  repeat split; now apply where_both_sequential.
Qed.

(** X13: on a table that has both columns, each holding strings and
    nulls, the order of two substring filters does not matter: the
    18-24 rows of [black] are the Black rows of the 18-24 subset, and
    likewise for any two columns and patterns.  (On other columns the
    order can matter: the second filter's [.str] sees the column of the
    first filter's subset.) *)
Theorem filters_commute (gdf : GeoDataFrame) (col1 pat1 col2 pat2 : string) :
  mem col1 (columns (frame gdf)) = true ->
  mem col2 (columns (frame gdf)) = true ->
  text_column gdf col1 ->
  text_column gdf col2 ->
  (s <- where_contains gdf col1 pat1 ;; where_contains s col2 pat2) =
  (s <- where_contains gdf col2 pat2 ;; where_contains s col1 pat1).
Proof.
  intros H1 H2 T1 T2. unfold text_column in T1, T2.
  rewrite (where_contains_filter gdf col1 pat1 H1 (str_contains_text _ _ T1)),
          (where_contains_filter gdf col2 pat2 H2 (str_contains_text _ _ T2)).
  cbn [bind].
  rewrite !where_contains_filter;
    try assumption;
    try (cbn [frame rows]; now apply str_contains_text, text_column_filter).
  cbn [frame rows columns crs]. rewrite !filter_filter.
  do 3 f_equal. apply filter_ext. intro r. apply andb_comm.
Qed.

(** X14: the arrest percentage of the Black subset and the percentage
    of Black citizens stopped by Black officers, both taken against
    [len(black)] from subsets cut out of the whole table, lie in
    [0, 100] when [black] has rows and raise [ZeroDivisionError] when it
    has none. *)
Theorem black_percentages_bounded (crimes b ba bb : GeoDataFrame) :
  black crimes = Ok b ->
  bk_arrested crimes = Ok ba ->
  b_2_b crimes = Ok bb ->
  (glen b <> 0%nat ->
   exists q q',
     percentage_of ba b = Ok (q * 100)%Q /\
     (0 <= q * 100)%Q /\ (q * 100 <= 100)%Q /\
     percentage_of bb b = Ok (q' * 100)%Q /\
     (0 <= q' * 100)%Q /\ (q' * 100 <= 100)%Q) /\
  (glen b = 0%nat ->
   percentage_of ba b = Raise ZeroDivisionError /\
   percentage_of bb b = Raise ZeroDivisionError).
Proof.
  intros Hb Hba Hbb.
  assert (Hle : (glen ba <= glen b /\ glen bb <= glen b)%nat).
  { unfold black in Hb. apply where_contains_inv in Hb as (_ & _ & ->).
    unfold bk_arrested in Hba. apply where_both_inv in Hba as (_ & _ & ->).
    unfold b_2_b in Hbb. apply where_both_inv in Hbb as (_ & _ & ->).
    unfold glen, len. cbn [frame rows]. split; apply filter_and_length. }
  destruct Hle as [Hle1 Hle2]. split.
  - intro Hne.
    destruct (truediv_bounds (glen ba) (glen b) Hle1 Hne)
      as (q & Hq & _ & _ & Hq0 & Hq1).
    destruct (truediv_bounds (glen bb) (glen b) Hle2 Hne)
      as (q' & Hq' & _ & _ & Hq'0 & Hq'1).
    exists q, q'. unfold percentage_of. rewrite Hq, Hq'.
    repeat split; assumption.
  - intro Hz. unfold percentage_of. rewrite Hz. split; reflexivity.
Qed.

(** X15: [black] and [white] are not a partition.  Whenever the
    [black] cell yields its subset the [white] cell yields one too; a
    row is in both when its label holds both words, and in neither when
    the label is not a string or holds neither; the two sizes add up to
    the number of rows in either subset plus the number of rows in
    both, so the two shares can add up to more, or to less, than the
    whole. *)
Theorem black_white_overlap (crimes b : GeoDataFrame) :
  black crimes = Ok b ->
  exists w,
    white crimes = Ok w /\
    (glen b + glen w =
     List.length
       (filter (fun r => cell_contains "self_defined_ethnicity" "Black" r ||
                         cell_contains "self_defined_ethnicity" "White" r)
          (rows (frame crimes))) +
     List.length
       (filter (fun r => cell_contains "self_defined_ethnicity" "Black" r &&
                         cell_contains "self_defined_ethnicity" "White" r)
          (rows (frame crimes))))%nat /\
    (forall r,
       In r (rows (frame b)) /\ In r (rows (frame w)) <->
       In r (rows (frame crimes)) /\
       exists s, cell "self_defined_ethnicity" (snd r) = VStr s /\
                 contains "Black" s = true /\ contains "White" s = true) /\
    (forall r,
       (forall s, cell "self_defined_ethnicity" (snd r) <> VStr s) ->
       ~ In r (rows (frame b)) /\ ~ In r (rows (frame w))).
Proof.
  unfold black, white. intro Hb.
  apply where_contains_inv in Hb as (Hmem & Hstr & ->).
  rewrite (where_contains_filter crimes _ "White" Hmem
             (str_contains_any_pattern _ "White" _ _ Hstr)).
  eexists. split; [reflexivity|].
  unfold glen, len. cbn [frame rows].
  split; [apply filter_incl_excl|].
  split.
  - intro r. rewrite !filter_In. unfold cell_contains.
    destruct (cell "self_defined_ethnicity" (snd r)) as [| | | |s| | |];
      try (split; [intros [[_ H] _]; discriminate H
                  | intros [_ (s & H & _)]; discriminate H]).
    split.
    + intros [[Hin Hb] [_ Hw]]. split; [exact Hin|]. now exists s.
    + intros [Hin (s' & Hs & Hb & Hw)]. injection Hs as <-. now repeat split.
  - intros r Hr. rewrite !filter_In. unfold cell_contains.
    destruct (cell "self_defined_ethnicity" (snd r)) as [| | | |s| | |];
      try (split; intros [_ H]; discriminate H).
    exfalso. now apply (Hr s).
Qed.

(** On a four-row table: a label with both words, a Black label, a
    null label and a White one. *)
Lemma two_conditions_are_nested_subsets_witness :
  (text_column mixed_crimes "self_defined_ethnicity" /\
   text_column mixed_crimes "outcome") /\
  bk_arrested mixed_crimes = (b <- black mixed_crimes ;; arrested b) /\
  wh_arrested mixed_crimes = (w <- white mixed_crimes ;; arrested w) /\
  b_2_b mixed_crimes =
    (o <- where_contains mixed_crimes "officer_ethnicity" "Black" ;; black o).
Proof.
  assert (H1 : text_column mixed_crimes "self_defined_ethnicity")
    by (vm_compute; reflexivity).
  assert (H2 : text_column mixed_crimes "outcome")
    by (vm_compute; reflexivity).
  split; [split; assumption|].
  exact (two_conditions_are_nested_subsets mixed_crimes H1 H2).
Defined.

(** On the spatial table of the sample network. *)
Lemma filters_commute_witness :
  (mem "self_defined_ethnicity" (columns (frame spring_crimes)) = true /\
   mem "age_range" (columns (frame spring_crimes)) = true /\
   text_column spring_crimes "self_defined_ethnicity" /\
   text_column spring_crimes "age_range") /\
  (s <- where_contains spring_crimes "self_defined_ethnicity" "Black" ;;
   where_contains s "age_range" "18-24") =
  (s <- where_contains spring_crimes "age_range" "18-24" ;;
   where_contains s "self_defined_ethnicity" "Black").
Proof.
  assert (H1 : mem "self_defined_ethnicity" (columns (frame spring_crimes))
               = true) by (vm_compute; reflexivity).
  assert (H2 : mem "age_range" (columns (frame spring_crimes)) = true)
    by (vm_compute; reflexivity).
  assert (T1 : text_column spring_crimes "self_defined_ethnicity")
    by (vm_compute; reflexivity).
  assert (T2 : text_column spring_crimes "age_range")
    by (vm_compute; reflexivity).
  split; [repeat split; assumption|].
  exact (filters_commute spring_crimes "self_defined_ethnicity" "Black"
           "age_range" "18-24" H1 H2 T1 T2).
Defined.

(** On a four-row table: two Black rows, one of them an arrest by a
    White officer. *)
Lemma black_percentages_bounded_witness :
  exists b ba bb,
    (black mixed_crimes = Ok b /\
     bk_arrested mixed_crimes = Ok ba /\
     b_2_b mixed_crimes = Ok bb) /\
    (glen b <> 0%nat ->
     exists q q',
       percentage_of ba b = Ok (q * 100)%Q /\
       (0 <= q * 100)%Q /\ (q * 100 <= 100)%Q /\
       percentage_of bb b = Ok (q' * 100)%Q /\
       (0 <= q' * 100)%Q /\ (q' * 100 <= 100)%Q) /\
    (glen b = 0%nat ->
     percentage_of ba b = Raise ZeroDivisionError /\
     percentage_of bb b = Raise ZeroDivisionError).
Proof.
  destruct (black mixed_crimes) as [b|] eqn:Hb;
    [|vm_compute in Hb; discriminate Hb].
  destruct (bk_arrested mixed_crimes) as [ba|] eqn:Hba;
    [|vm_compute in Hba; discriminate Hba].
  destruct (b_2_b mixed_crimes) as [bb|] eqn:Hbb;
    [|vm_compute in Hbb; discriminate Hbb].
  exists b, ba, bb.
  split; [repeat split|].
  exact (black_percentages_bounded mixed_crimes b ba bb Hb Hba Hbb).
Defined.

(** On the same table, which has a label with both words and a null
    label. *)
Lemma black_white_overlap_witness :
  exists b,
    black mixed_crimes = Ok b /\
    exists w,
      white mixed_crimes = Ok w /\
      (glen b + glen w =
       List.length
         (filter (fun r => cell_contains "self_defined_ethnicity" "Black" r ||
                           cell_contains "self_defined_ethnicity" "White" r)
            (rows (frame mixed_crimes))) +
       List.length
         (filter (fun r => cell_contains "self_defined_ethnicity" "Black" r &&
                           cell_contains "self_defined_ethnicity" "White" r)
            (rows (frame mixed_crimes))))%nat /\
      (forall r,
         In r (rows (frame b)) /\ In r (rows (frame w)) <->
         In r (rows (frame mixed_crimes)) /\
         exists s, cell "self_defined_ethnicity" (snd r) = VStr s /\
                   contains "Black" s = true /\ contains "White" s = true) /\
      (forall r,
         (forall s, cell "self_defined_ethnicity" (snd r) <> VStr s) ->
         ~ In r (rows (frame b)) /\ ~ In r (rows (frame w))).
Proof.
  destruct (black mixed_crimes) as [b|] eqn:Hb;
    [|vm_compute in Hb; discriminate Hb].
  exists b. split; [reflexivity|].
  exact (black_white_overlap mixed_crimes b Hb).
Defined.

(** Four rows: two in [black], two in [white], one of them in both and
    one in neither. *)
Example mixed_crimes_sizes :
  (b <- black mixed_crimes ;;
   w <- white mixed_crimes ;;
   both <- black w ;;
   Ok (glen mixed_crimes, glen b, glen w, glen both)) =
  Ok (4, 2, 2, 1)%nat.
Proof. vm_compute. reflexivity. Qed.

(** ** The spatial table and everything cut out of it *)

Lemma lookup_app_mem {A : Type} (k : string) (s t : list (string * A)) :
  mem k (labels s) = true -> lookup k (s ++ t) = lookup k s.
Proof.
  induction s as [|[k' v'] s IH]; simpl; [discriminate|].
  destruct (String.eqb k k'); simpl; auto.
Qed.



Section SpatialTable.

Context {rt : Runtime}.

(** A geo-tagged annual table has rows, and is the table of
    [crimes_geodf_rows]. *)
Lemma crimes_geodf_inv (year : string) (yearly : DataFrame)
  (crimes : GeoDataFrame) :
  yearly_crimes year = Ok yearly ->
  crimes_geodf yearly = Ok crimes ->
  rows yearly <> [] /\
  crs crimes = "EPSG:27700" /\
  columns (frame crimes) = (ss_labels ++ ["geometry"])%list /\
  rows (frame crimes) = map tag_row (rows yearly).
Proof.
  intros Hyear Hgeo.
  pose proof (yearly_crimes_invariant year yearly Hyear) as Hinv.
  assert (Hne : rows yearly <> []).
  { intro Hnil. destruct Hinv as [_ Hcols]. rewrite Hnil in Hcols.
    unfold crimes_geodf, df_getitem in Hgeo. rewrite Hcols in Hgeo.
    discriminate Hgeo. }
  destruct (crimes_geodf_rows yearly Hinv Hne) as (gdf & Hgdf & H1 & H2 & H3).
  rewrite Hgdf in Hgeo. injection Hgeo as <-. auto.
Qed.

(** X16: the geo-tagger changes nothing but the geometry column.  It
    raises the key error of the longitude column on an annual table
    without rows; otherwise the spatial table has as many rows, under
    the same index labels, the ten columns followed by geometry, and
    every one of the ten columns reads the same as before. *)
Theorem crimes_geodf_keeps_data (year : string) (yearly : DataFrame) :
  yearly_crimes year = Ok yearly ->
  (rows yearly = [] -> crimes_geodf yearly = Raise (KeyError "longitude")) /\
  (forall crimes,
     crimes_geodf yearly = Ok crimes ->
     glen crimes = len yearly /\
     map fst (rows (frame crimes)) = map fst (rows yearly) /\
     columns (frame crimes) = (columns yearly ++ ["geometry"])%list /\
     forall col, In col ss_labels ->
       df_getitem (frame crimes) col = df_getitem yearly col).
Proof.
  intro Hyear.
  pose proof (yearly_crimes_invariant year yearly Hyear) as [Hnorm Hcols].
  split.
  { intro Hnil. unfold crimes_geodf, df_getitem.
    rewrite Hcols, Hnil. reflexivity. }
  intros crimes Hgeo.
  destruct (crimes_geodf_inv year yearly crimes Hyear Hgeo)
    as (Hne & _ & Hc & Hrows).
  assert (Hcy : columns yearly = ss_labels).
  { rewrite Hcols. destruct (rows yearly); [congruence | reflexivity]. }
  split; [unfold glen, len; now rewrite Hrows, length_map|].
  split; [rewrite Hrows, map_map; reflexivity|].
  split; [now rewrite Hc, Hcy|].
  intros col Hin. unfold df_getitem. rewrite Hc, Hcy, Hrows.
  assert (Hm : mem col ss_labels = true).
  { simpl in Hin.
    repeat (destruct Hin as [<-|Hin]; [reflexivity|]). contradiction. }
  assert (Hm' : mem col (ss_labels ++ ["geometry"])%list = true).
  { unfold mem in *. rewrite existsb_app, Hm. reflexivity. }
  rewrite Hm, Hm'. f_equal. rewrite map_map.
  apply (proj1 (Forall_map _ _ _)) in Hnorm.
  clear -Hnorm Hm. induction Hnorm as [|[i s] rs [Hl _] _ IH]; cbn [map];
    [reflexivity|].
  rewrite IH. f_equal. unfold tag_row, cell. cbn [fst snd].
  rewrite lookup_app_mem; [reflexivity|]. simpl in Hl. now rewrite Hl.
Qed.


End SpatialTable.

(** On the annual table of the sample network. *)
Lemma crimes_geodf_keeps_data_witness :
  exists yearly,
    yearly_crimes (rt := spring_runtime) "2020" = Ok yearly /\
    (rows yearly = [] ->
     crimes_geodf (rt := spring_runtime) yearly =
       Raise (KeyError "longitude")) /\
    (forall crimes,
       crimes_geodf (rt := spring_runtime) yearly = Ok crimes ->
       glen crimes = len yearly /\
       map fst (rows (frame crimes)) = map fst (rows yearly) /\
       columns (frame crimes) = (columns yearly ++ ["geometry"])%list /\
       forall col, In col ss_labels ->
         df_getitem (frame crimes) col = df_getitem yearly col).
Proof.
  destruct (yearly_crimes (rt := spring_runtime) "2020") as [yearly|] eqn:Hy;
    [|vm_compute in Hy; discriminate Hy].
  exists yearly. split; [reflexivity|].
  exact (crimes_geodf_keeps_data (rt := spring_runtime) "2020" yearly Hy).
Defined.


(** ** Columns that [.str] refuses *)

(** When every outcome is [false] the spatial table is built and
    [black] is cut out of it, but the cells that search the outcome
    raise. *)
Example false_outcome_raises :
  (crimes <- crimes_geodf_20 (rt := false_outcome_runtime) ;;
   b <- black crimes ;;
   Ok (glen crimes, glen b)) = Ok (2, 1)%nat /\
  (crimes <- crimes_geodf_20 (rt := false_outcome_runtime) ;;
   arrested crimes) = Raise AttributeError /\
  (crimes <- crimes_geodf_20 (rt := false_outcome_runtime) ;;
   bk_arrested crimes) = Raise AttributeError.
Proof. repeat split; vm_compute; reflexivity. Qed.

(** When the outcome is [false] on the Black rows only, the cell with
    two conditions returns a table, since the whole column holds a
    text, while the arrests among [black] cannot be taken. *)
Example nested_form_raises :
  (crimes <- crimes_geodf_20 (rt := part_false_runtime) ;;
   ba <- bk_arrested crimes ;;
   Ok (glen ba)) = Ok 0%nat /\
  (crimes <- crimes_geodf_20 (rt := part_false_runtime) ;;
   b <- black crimes ;;
   arrested b) = Raise AttributeError.
Proof. split; vm_compute; reflexivity. Qed.

(** When the age range is a number on the Black row and a text on the
    other, the 18-24 rows of [black] cannot be taken, while the Black
    rows of the 18-24 subset are an empty table. *)
Example filter_order_matters :
  (crimes <- crimes_geodf_20 (rt := numeric_age_runtime) ;;
   b <- black crimes ;;
   black_youth b) = Raise AttributeError /\
  (crimes <- crimes_geodf_20 (rt := numeric_age_runtime) ;;
   y <- where_contains crimes "age_range" "18-24" ;;
   b <- black y ;;
   Ok (glen y, glen b)) = Ok (1, 0)%nat.
Proof. split; vm_compute; reflexivity. Qed.

(** ** The isochrone cells on other responses *)

Lemma lookup_app_none {A : Type} (k : string) (s t : list (string * A)) :
  lookup k s = None -> lookup k (s ++ t) = lookup k t.
Proof.
  induction s as [|[k' v'] s IH]; simpl; [reflexivity|].
  destruct (String.eqb k k'); [discriminate | exact IH].
Qed.

Lemma lookup_none_not_in {A : Type} (k : string) (s : list (string * A)) :
  lookup k s = None <-> ~ In k (labels s).
Proof.
  induction s as [|[k' v'] s IH]; simpl; [tauto|].
  destruct (String.eqb_spec k k') as [->|Hne].
  - split; [discriminate | intro H; exfalso; apply H; now left].
  - rewrite IH. split; [intros H [E|Hin]; [congruence | auto] | tauto].
Qed.

(** [dict.update] with fresh, distinct keys appends them in order. *)
Lemma update_fresh {A : Type} (d init : list (string * A)) :
  NoDup (labels d) ->
  (forall k, In k (labels d) -> lookup k init = None) ->
  fold_left (fun row kv => assign (fst kv) (snd kv) row) d init =
  (init ++ d)%list.
Proof.
  revert init; induction d as [|[k v] d IH]; intros init Hnd Hfresh; simpl.
  - now rewrite app_nil_r.
  - inversion Hnd as [|? ? Hnotin Hnd']; subst.
    rewrite assign_fresh by (apply Hfresh; now left).
    rewrite IH; [now rewrite <- app_assoc | exact Hnd' |].
    intros k' Hk'. rewrite lookup_app_none by (apply Hfresh; now right).
    simpl. destruct (String.eqb_spec k' k) as [->|_]; [contradiction|].
    reflexivity.
Qed.

Lemma union_fresh (acc l : list string) :
  NoDup (acc ++ l) -> union acc l = (acc ++ l)%list.
Proof.
  unfold union. revert acc; induction l as [|k l IH]; intros acc Hnd; simpl.
  - now rewrite app_nil_r.
  - assert (Hk : mem k acc = false).
    { destruct (mem k acc) eqn:E; [|reflexivity]. exfalso.
      unfold mem in E. apply existsb_exists in E as (x & Hx & Hkx).
      apply String.eqb_eq in Hkx. subst x.
      apply (NoDup_app_In acc (k :: l) k Hnd Hx). now left. }
    rewrite Hk. rewrite IH; rewrite <- app_assoc; [reflexivity | exact Hnd].
Qed.

Section IsochroneResponses.

Context {rt : Runtime}.

(** X18: the split looks at the first two features only.  A response
    with two or more features yields the first two, the others being
    dropped without notice; with fewer than two the cell raises
    [IndexError], and without a features key the key error of that
    access. *)
Theorem walk_split_by_count (walk : value) :
  (forall fs,
     walk.["features"] = Ok (VList fs) ->
     match fs with
     | f0 :: f1 :: _ => walk_split walk = Ok (f0, f1)
     | _ => walk_split walk = Raise IndexError
     end) /\
  (forall e, walk.["features"] = Raise e -> walk_split walk = Raise e).
Proof.
  split.
  - intros fs H. unfold walk_split. rewrite H.
    destruct fs as [|f0 [|f1 fs]]; reflexivity.
  - intros e H. unfold walk_split. now rewrite H.
Qed.

(** The row built from one isochrone feature: the polygon, then the
    properties as they come. *)
Lemma feature_row_isochrone (feature : value) (contour : Z)
  (pts : list (float * float)) (props : list (string * value)) :
  isochrone_feature feature contour pts ->
  feature.["properties"] = Ok (VDict props) ->
  from_features [feature] "EPSG:4326" =
    Ok {| frame :=
            {| columns := "geometry" :: labels props;
               rows := [(0, ("geometry", VGeom (Polygon pts [])) :: props)] |};
          crs := "EPSG:4326" |}.
Proof.
  intros (props' & geom & ring & Hprops & Hnd & _ & Hnogeom & Hgeom
          & Htype & Hcoords & Hring & Hlen & Hclosed) Hp.
  rewrite Hprops in Hp. injection Hp as ->.
  assert (Hshape : shape (VDict geom) = Ok (Polygon pts [])).
  { unfold shape. rewrite Htype, Hcoords. cbn [lower lower_ascii].
    simpl negb. cbv iota.
    destruct ring as [|o ring];
      [inversion Hring; subst; simpl in Hlen; lia|].
    inversion Hring as [|? p ? pts' Hop Hrest]; subst.
    apply json_position_ok in Hop as [_ Hempty].
    cbn [is_coordinates_empty forallb]. rewrite Hempty. cbn [andb].
    rewrite (LinearRing_closed (o :: ring) (p :: pts') Hring Hlen Hclosed).
    reflexivity. }
  assert (Htruthy : truthy (VDict geom) = true).
  { destruct geom; [discriminate Htype | reflexivity]. }
  assert (Hfresh : forall k, In k (labels props) ->
             lookup k [("geometry", VGeom (Polygon pts []))] = None).
  { intros k Hk. simpl. destruct (String.eqb_spec k "geometry") as [->|_];
      [|reflexivity].
    exfalso. now apply (proj1 (lookup_none_not_in _ _) Hnogeom). }
  assert (Hrow : feature_row feature =
                 Ok (("geometry", VGeom (Polygon pts [])) :: props)).
  { unfold feature_row. rewrite Hgeom. cbn [bind]. rewrite Htruthy, Hshape.
    cbn [bind]. rewrite Hprops. cbn [bind]. now rewrite update_fresh. }
  unfold from_features. cbn [mapM]. rewrite Hrow. cbn [bind].
  unfold DataFrame_of. cbn [map fold_left enumerate rows forallb snd].
  change (cell "geometry" (("geometry", VGeom (Polygon pts [])) :: props))
    with (VGeom (Polygon pts [])).
  cbn [is_geometry andb].
  rewrite union_fresh.
  - reflexivity.
  - simpl. constructor; [|exact Hnd].
    now apply (proj1 (lookup_none_not_in _ _) Hnogeom).
Qed.

(** X19: each of the two frames has one row that carries its feature
    whole: the columns are geometry followed by the feature's property
    keys in their order, and every property (fill, opacity, contour,
    metric, ...) has the value it had in the response. *)
Theorem walk_frames_carry_properties (walk f0 f1 : value) (c0 c1 : Z)
  (pts0 pts1 : list (float * float)) (props0 props1 : list (string * value)) :
  walk.["features"] = Ok (VList [f0; f1]) ->
  isochrone_feature f0 c0 pts0 ->
  isochrone_feature f1 c1 pts1 ->
  f0.["properties"] = Ok (VDict props0) ->
  f1.["properties"] = Ok (VDict props1) ->
  exists walk_5 walk_10 row_5 row_10,
    walk_frames walk = Ok (walk_5, walk_10) /\
    rows (frame walk_5) = [(0, row_5)] /\
    rows (frame walk_10) = [(0, row_10)] /\
    columns (frame walk_5) = "geometry" :: labels props0 /\
    columns (frame walk_10) = "geometry" :: labels props1 /\
    labels row_5 = "geometry" :: labels props0 /\
    labels row_10 = "geometry" :: labels props1 /\
    (forall k v, lookup k props0 = Some v -> cell k row_5 = v) /\
    (forall k v, lookup k props1 = Some v -> cell k row_10 = v).
Proof.
  intros Hwalk H0 H1 Hp0 Hp1.
  pose proof (feature_row_isochrone f0 c0 pts0 props0 H0 Hp0) as Hf0.
  pose proof (feature_row_isochrone f1 c1 pts1 props1 H1 Hp1) as Hf1.
  assert (Hng : forall f c pts props,
            isochrone_feature f c pts -> f.["properties"] = Ok (VDict props) ->
            lookup "geometry" props = None).
  { intros f c pts props (props' & _ & _ & Hp & _ & _ & Hn & _) Hq.
    rewrite Hp in Hq. now injection Hq as ->. }
  do 2 eexists.
  exists (("geometry", VGeom (Polygon pts0 [])) :: props0),
         (("geometry", VGeom (Polygon pts1 [])) :: props1).
  split.
  { unfold walk_frames. rewrite (walk_split_two walk f0 f1 Hwalk).
    cbn [bind fst snd]. rewrite Hf0. cbn [bind]. rewrite Hf1. reflexivity. }
  cbn [frame rows columns labels map fst].
  repeat split.
  - intros k v Hk. unfold cell. simpl.
    destruct (String.eqb_spec k "geometry") as [->|_]; [|now rewrite Hk].
    pose proof (Hng f0 c0 pts0 props0 H0 Hp0) as Hn. congruence.
  - intros k v Hk. unfold cell. simpl.
    destruct (String.eqb_spec k "geometry") as [->|_]; [|now rewrite Hk].
    pose proof (Hng f1 c1 pts1 props1 H1 Hp1) as Hn. congruence.
Qed.

End IsochroneResponses.

(** On a response with three features, one with a single feature and
    an error body. *)
Lemma walk_split_by_count_witness :
  walk_split walk_three =
    Ok (recorded_feature "#04e813" 15 recorded_ring_0,
        recorded_feature "#6706ce" 10 recorded_ring_1) /\
  walk_split walk_one = Raise IndexError /\
  walk_split error_body = Raise (KeyError "features").
Proof.
  split; [|split].
  - exact (proj1 (walk_split_by_count walk_three) _ eq_refl).
  - exact (proj1 (walk_split_by_count walk_one) _ eq_refl).
  - exact (proj2 (walk_split_by_count error_body) _ eq_refl).
Defined.

(** On the response printed in the notebook. *)
Lemma walk_frames_carry_properties_witness :
  exists walk_5 walk_10 row_5 row_10,
    walk_frames (rt := quiet_runtime) walk_recorded = Ok (walk_5, walk_10) /\
    rows (frame walk_5) = [(0, row_5)] /\
    rows (frame walk_10) = [(0, row_10)] /\
    columns (frame walk_5) =
      "geometry" :: labels (recorded_properties "#04e813" 10) /\
    columns (frame walk_10) =
      "geometry" :: labels (recorded_properties "#6706ce" 5) /\
    labels row_5 = "geometry" :: labels (recorded_properties "#04e813" 10) /\
    labels row_10 = "geometry" :: labels (recorded_properties "#6706ce" 5) /\
    (forall k v, lookup k (recorded_properties "#04e813" 10) = Some v ->
                 cell k row_5 = v) /\
    (forall k v, lookup k (recorded_properties "#6706ce" 5) = Some v ->
                 cell k row_10 = v).
Proof.
  apply (walk_frames_carry_properties (rt := quiet_runtime) walk_recorded
           (recorded_feature "#04e813" 10 recorded_ring_0)
           (recorded_feature "#6706ce" 5 recorded_ring_1)
           10 5 recorded_ring_0 recorded_ring_1).
  - reflexivity.
  - apply recorded_feature_isochrone; [simpl; lia | reflexivity].
  - apply recorded_feature_isochrone; [simpl; lia | reflexivity].
  - reflexivity.
  - reflexivity.
Defined.

Lemma mapM_ext_in {A B : Type} (f g : A -> result B) (l : list A) :
  (forall a, In a l -> f a = g a) -> mapM f l = mapM g l.
Proof.
  induction l as [|a l IH]; simpl; intro H; [reflexivity|].
  rewrite (H a) by now left.
  rewrite IH by (intros x Hx; apply H; now right). reflexivity.
Qed.

(** X20: the annual table depends on the network through the twelve
    month URLs of its year and nothing else: two networks that answer
    these twelve requests alike yield the same annual table, or the same
    exception. *)
Theorem yearly_crimes_reads_twelve_urls (parse : string -> option float)
  (network network' : string -> result value) (year : string) :
  (forall month, In month months ->
     network (month_url month year) = network' (month_url month year)) ->
  yearly_crimes
    (rt := {| float_of_string := parse; fetch_json := network |}) year =
  yearly_crimes
    (rt := {| float_of_string := parse; fetch_json := network' |}) year.
Proof.
  intro H. unfold yearly_crimes.
  rewrite (mapM_ext_in _
             (fun month =>
                get_month_crime
                  (rt := {| float_of_string := parse;
                            fetch_json := network' |}) month year)).
  - reflexivity.
  - intros month Hin. unfold get_month_crime. cbn [fetch_json].
    rewrite (H month Hin).
    destruct (network' (month_url month year)); reflexivity.
Qed.

(** On the sample network and the same network with an answer for
    January 2019. *)
Lemma yearly_crimes_reads_twelve_urls_witness :
  (forall month, In month months ->
     spring_network (month_url month "2020") =
     spring_network_2019 (month_url month "2020")) /\
  yearly_crimes
    (rt := {| float_of_string := sample_float_of_string;
              fetch_json := spring_network |}) "2020" =
  yearly_crimes
    (rt := {| float_of_string := sample_float_of_string;
              fetch_json := spring_network_2019 |}) "2020".
Proof.
  assert (H : forall month, In month months ->
                spring_network (month_url month "2020") =
                spring_network_2019 (month_url month "2020")).
  { intros month Hin. unfold months in Hin. simpl in Hin.
    repeat (destruct Hin as [<-|Hin]; [vm_compute; reflexivity|]).
    contradiction. }
  split; [exact H|].
  exact (yearly_crimes_reads_twelve_urls sample_float_of_string
           spring_network spring_network_2019 "2020" H).
Defined.
